(** * Room membership coordinator of the game server (app/model.py)

    A shallow embedding of the room functions of [app/model.py]: the
    three tables the functions read and write are lists of rows, every
    function is a state-passing computation over the database that either
    returns a value or raises a Python exception, and every
    [with engine.begin() as conn:] block is a transaction that is rolled
    back when its body raises.

    A function of the model runs one call to completion.  [join_room]
    reads and writes in transactions of their own, so two calls can
    overlap; [join_room_decide], [join_room_write] and [interleaved_joins]
    represent the schedule in which both calls read before either
    writes. *)

From Stdlib Require Import ZArith List String Bool Lia.
Import ListNotations.
Local Open Scope string_scope.
Local Open Scope list_scope.
Local Open Scope Z_scope.

(** ** Enumerations (IntEnum classes of model.py) *)

Inductive LiveDifficulty := normal | hard.

Inductive JoinRoomResult := Ok | RoomFull | Disbanded | OtherError.

Inductive WaitRoomStatus := Waiting | LiveStart | Dissolution.

(** [int(x)] on the members of the three enumerations. *)
Definition int_LiveDifficulty (d : LiveDifficulty) : Z :=
  match d with normal => 1 | hard => 2 end.

Definition int_JoinRoomResult (j : JoinRoomResult) : Z :=
  match j with Ok => 1 | RoomFull => 2 | Disbanded => 3 | OtherError => 4 end.

Definition int_WaitRoomStatus (s : WaitRoomStatus) : Z :=
  match s with Waiting => 1 | LiveStart => 2 | Dissolution => 3 end.

Definition JoinRoomResult_eqb (a b : JoinRoomResult) : bool :=
  int_JoinRoomResult a =? int_JoinRoomResult b.

(** ** Tables *)

Record user_row := mk_user
  { u_id : Z; u_name : string; u_token : string; u_leader_card_id : Z }.

Record room_row := mk_room
  { r_id : Z; r_live_id : Z; r_room_master : Z;
    r_joined_user_count : Z; r_status : Z }.

Record room_member_row := mk_member
  { m_room_id : Z; m_user_id : Z; m_difficulty : Z; m_in_order : Z }.

(** The database: the rows of the three tables in insertion order and the
    counter from which the store draws the next [room.id]. *)
Record database := mk_db
  { user : list user_row;
    room : list room_row;
    room_member : list room_member_row;
    room_auto_increment : Z }.

(** Modelled from the spec: the table declarations (the schema file) are
    not part of the sources.  The spec says a room's [id] is assigned by
    the store on creation; [INSERT INTO room] therefore takes the id from
    the table's counter and advances it, and [lastrowid] is that id. *)
Definition room_lastrowid (db : database) : Z := room_auto_increment db.

(** Modelled from the spec: the column default of [room_member.in_order],
    which [create_room] relies on because its INSERT names no [in_order];
    the table declaration is not part of the sources.  The spec has the
    creator's membership created with join_order = 1. *)
Definition room_member_in_order_default : Z := 1.

(** ** Exceptions and the computation monad *)

Inductive exn :=
| InvalidToken          (* model.InvalidToken *)
| NoResultFound         (* sqlalchemy.exc.NoResultFound *)
| MultipleResultsFound  (* sqlalchemy.exc.MultipleResultsFound *)
| StatementError        (* a bind parameter of the statement has no value *)
| AttributeError        (* attribute access on None *)
| TypeError
| ValueError
| ProgrammingError      (* the store rejects the statement's text *)
| Exception.

Inductive outcome (A : Type) :=
| Return (a : A)
| Raise (e : exn).
Arguments Return {A} a.
Arguments Raise {A} e.

Definition M (A : Type) : Type := database -> outcome A * database.

Definition ret {A} (a : A) : M A := fun db => (Return a, db).

Definition raise {A} (e : exn) : M A := fun db => (Raise e, db).

Definition bind {A B} (c : M A) (k : A -> M B) : M B :=
  fun db =>
    match c db with
    | (Return a, db') => k a db'
    | (Raise e, db') => (Raise e, db')
    end.

Definition lift {A} (o : outcome A) : M A := fun db => (o, db).

Definition query {A} (q : database -> A) : M A := fun db => (Return (q db), db).

Definition update (f : database -> database) : M unit :=
  fun db => (Return tt, f db).

Declare Scope py_scope.
Delimit Scope py_scope with py.
Notation "x <- c ;; k" := (bind c (fun x => k))
  (at level 61, c at next level, right associativity) : py_scope.
Notation "c ;;; k" := (bind c (fun _ => k))
  (at level 61, right associativity) : py_scope.
Local Open Scope py_scope.

(** [with engine.begin() as conn: body]: commit when the body returns,
    roll back when it raises.  In this program no block raises after a
    statement of its own or a nested block has written, so restoring the
    state at entry is the roll-back of the block's own statements. *)
Definition engine_begin {A} (body : M A) : M A :=
  fun db =>
    match body db with
    | (Return a, db') => (Return a, db')
    | (Raise e, _) => (Raise e, db)
    end.

(** ** SQLAlchemy helpers *)

(** The value a statement's bind parameter [:name] takes from the
    dictionary passed to [execute]; a name the dictionary lacks makes
    [execute] raise before the statement reaches the store. *)
Fixpoint bindparam {V} (parameters : list (string * V)) (name : string)
  : outcome V :=
  match parameters with
  | [] => Raise StatementError
  | (k, v) :: rest => if String.eqb k name then Return v else bindparam rest name
  end.

(** [Result.one()] *)
Definition one {A} (rows : list A) : outcome A :=
  match rows with
  | [] => Raise NoResultFound
  | [x] => Return x
  | _ :: _ :: _ => Raise MultipleResultsFound
  end.

(** [Result.one_or_none()] *)
Definition one_or_none {A} (rows : list A) : outcome (option A) :=
  match rows with
  | [] => Return None
  | [x] => Return (Some x)
  | _ :: _ :: _ => Raise MultipleResultsFound
  end.

(** [Result.all()] and [Result.fetchall()] *)
Definition all {A} (rows : list A) : outcome (list A) := Return rows.

(** A result row: the selected columns in order. *)
Definition Row := list Z.

(** ** The statements *)

(** [SELECT id, name, leader_card_id FROM user WHERE token=:token] *)
Record SafeUser := mk_SafeUser
  { id : Z; name : string; leader_card_id : Z }.

Definition select_user_by_token (token : string) (db : database)
  : list SafeUser :=
  map (fun u => mk_SafeUser (u_id u) (u_name u) (u_leader_card_id u))
      (filter (fun u => String.eqb (u_token u) token) (user db)).

(** [INSERT INTO room (live_id, room_master, joined_user_count, status)] *)
Definition insert_room (live_id room_master joined_user_count status : Z)
  (db : database) : database :=
  mk_db (user db)
        (room db ++ [mk_room (room_auto_increment db) live_id room_master
                             joined_user_count status])
        (room_member db)
        (room_auto_increment db + 1).

(** [INSERT INTO room_member (room_id, user_id, difficulty, in_order)] *)
Definition insert_member (room_id user_id difficulty in_order : Z)
  (db : database) : database :=
  mk_db (user db) (room db)
        (room_member db ++ [mk_member room_id user_id difficulty in_order])
        (room_auto_increment db).

(** [SELECT ... FROM room WHERE id=:room_id] *)
Definition select_room_by_id (room_id : Z) (db : database) : list room_row :=
  filter (fun r => r_id r =? room_id) (room db).

(** [SELECT id FROM room WHERE live_id=:live_id
     AND joined_user_count BETWEEN 1 AND 3] *)
Definition select_room_by_live_id (live_id : Z) (db : database)
  : list room_row :=
  filter (fun r => (r_live_id r =? live_id)
                   && ((1 <=? r_joined_user_count r)
                       && (r_joined_user_count r <=? 3)))
         (room db).

(** [SELECT room_id, user_id, difficulty, in_order FROM room_member
     WHERE room_id=:room_id] *)
Definition select_member_by_room (room_id : Z) (db : database)
  : list room_member_row :=
  filter (fun m => m_room_id m =? room_id) (room_member db).

(** [UPDATE room SET joined_user_count = joined_user_count + 1
     WHERE id=:room_id] *)
Definition update_room_upcount (room_id : Z) (db : database) : database :=
  mk_db (user db)
        (map (fun r => if r_id r =? room_id
                       then mk_room (r_id r) (r_live_id r) (r_room_master r)
                                    (r_joined_user_count r + 1) (r_status r)
                       else r)
             (room db))
        (room_member db)
        (room_auto_increment db).

(** [UPDATE room SET status=:status]: the statement has no WHERE clause. *)
Definition update_room_set_status (status : Z) (db : database) : database :=
  mk_db (user db)
        (map (fun r => mk_room (r_id r) (r_live_id r) (r_room_master r)
                               (r_joined_user_count r) status)
             (room db))
        (room_member db)
        (room_auto_increment db).

(** ** The functions of model.py *)

Definition _get_user_by_token (token : string) : M (option SafeUser) :=
  tok <- lift (bindparam [("token", token)] "token") ;;
  rows <- query (select_user_by_token tok) ;;
  match one rows with
  | Return row => ret (Some row)
  | Raise NoResultFound => ret None
  | Raise e => raise e
  end.

Definition get_user_by_token (token : string) : M (option SafeUser) :=
  engine_begin (_get_user_by_token token).

(** [conn.execute(INSERT INTO room ...)] followed by [result.lastrowid]. *)
Definition execute_insert_room (parameters : list (string * Z)) : M Z :=
  live_id <- lift (bindparam parameters "live_id") ;;
  room_master <- lift (bindparam parameters "room_master") ;;
  joined_user_count <- lift (bindparam parameters "joined_user_count") ;;
  status <- lift (bindparam parameters "status") ;;
  lastrowid <- query room_lastrowid ;;
  update (insert_room live_id room_master joined_user_count status) ;;;
  ret lastrowid.

(** [conn.execute(INSERT INTO room_member (room_id, user_id, difficulty))]:
    the statement of [create_room], which leaves [in_order] to the column
    default. *)
Definition execute_insert_room_member_default (parameters : list (string * Z))
  : M unit :=
  room_id <- lift (bindparam parameters "room_id") ;;
  user_id <- lift (bindparam parameters "user_id") ;;
  difficulty <- lift (bindparam parameters "difficulty") ;;
  update (insert_member room_id user_id difficulty
                        room_member_in_order_default).

(** [conn.execute(INSERT INTO room_member
     (room_id, user_id, difficulty, in_order))] *)
Definition execute_insert_room_member (parameters : list (string * Z))
  : M unit :=
  room_id <- lift (bindparam parameters "room_id") ;;
  user_id <- lift (bindparam parameters "user_id") ;;
  difficulty <- lift (bindparam parameters "difficulty") ;;
  in_order <- lift (bindparam parameters "in_order") ;;
  update (insert_member room_id user_id difficulty in_order).

Definition create_room (token : string) (live_id : Z)
  (difficulty : LiveDifficulty) : M Z :=
  engine_begin (
    user <- _get_user_by_token token ;;
    match user with
    | None => raise InvalidToken
    | Some user =>
        room_id <- execute_insert_room
                     [("live_id", live_id); ("room_master", id user);
                      ("joined_user_count", 1); ("status", 1)] ;;
        execute_insert_room_member_default
          [("room_id", room_id); ("user_id", id user);
           ("difficulty", int_LiveDifficulty difficulty)] ;;;
        ret room_id
    end).

(** [result.all()] cannot raise [NoResultFound], so the [except] branch
    that returns [None] is never taken; the function returns the list. *)
Definition search_room (live_id : Z) : M (option (list Z)) :=
  engine_begin (
    lid <- lift (bindparam [("live_id", live_id)] "live_id") ;;
    result <- query (select_room_by_live_id lid) ;;
    match all result with
    | Return row => ret (Some (map r_id row))
    | Raise NoResultFound => ret None
    | Raise e => raise e
    end).

Definition get_room_user_count (room_id : Z) : M Z :=
  engine_begin (
    rid <- lift (bindparam [("room_id", room_id)] "room_id") ;;
    rows <- query (select_room_by_id rid) ;;
    result <- lift (one rows) ;;
    ret (r_joined_user_count result)).

(** The [if]/[elif] chain of [get_upto_member_room] on the count read. *)
Definition judge (result : Z) : JoinRoomResult :=
  if result >? 4 then OtherError
  else if result =? 4 then RoomFull
  else if result >=? 0 then Ok
  else if result <? 0 then Disbanded
  else OtherError.

Definition get_upto_member_room (room_id : Z) : M JoinRoomResult :=
  engine_begin (
    rid <- lift (bindparam [("room_id", room_id)] "room_id") ;;
    rows <- query (select_room_by_id rid) ;;
    res <- lift (one rows) ;;
    ret (judge (r_joined_user_count res))).

Definition upcount_joined_count (room_id : Z) : M unit :=
  engine_begin (
    rid <- lift (bindparam [("room_id", room_id)] "room_id") ;;
    update (update_room_upcount rid)).

(** The statement's text is malformed and its bind parameter [:room_id]
    gets no value from [{"id": room_id}]. *)
Definition downcount_joined_count (room_id : Z) : M unit :=
  engine_begin (
    _ <- lift (bindparam [("id", room_id)] "room_id") ;;
    raise ProgrammingError).

(** Always returns [1]; the option is for the caller's [is None] test. *)
Definition insert_room_member (room_id user_id user_count : Z)
  : M (option Z) :=
  engine_begin (
    execute_insert_room_member
      [("room_id", room_id); ("user_id", user_id);
       ("difficulty", 1); ("in_order", user_count)] ;;;
    upcount_joined_count room_id ;;;
    ret (Some 1)).

(** [user.id] where [user] may be [None]. *)
Definition attr_id (user : option SafeUser) : outcome Z :=
  match user with
  | Some u => Return (id u)
  | None => Raise AttributeError
  end.

Definition join_room (token : string) (room_id : Z) : M JoinRoomResult :=
  engine_begin (
    user <- _get_user_by_token token ;;
    judge_join <- get_upto_member_room room_id ;;
    if JoinRoomResult_eqb judge_join Ok then
      user_count <- get_room_user_count room_id ;;
      user_id <- lift (attr_id user) ;;
      result <- insert_room_member room_id user_id (user_count + 1) ;;
      match result with
      | None => ret OtherError
      | Some _ => ret judge_join
      end
    else ret judge_join).

Record RoomMemberInfo := mk_RoomMemberInfo
  { rm_room_id : Z; rm_user_id : Z; rm_difficulty : LiveDifficulty;
    rm_in_order : Z }.

(** [LiveDifficulty(value)] *)
Definition LiveDifficulty_call (value : Z) : outcome LiveDifficulty :=
  if value =? 1 then Return normal
  else if value =? 2 then Return hard
  else Raise ValueError.

Fixpoint get_room_user_info_loop (result : list room_member_row)
  : outcome (list RoomMemberInfo) :=
  match result with
  | [] => Return []
  | res :: rest =>
      match LiveDifficulty_call (m_difficulty res) with
      | Raise e => Raise e
      | Return d =>
          match get_room_user_info_loop rest with
          | Raise e => Raise e
          | Return user_info =>
              Return (mk_RoomMemberInfo (m_room_id res) (m_user_id res) d
                                        (m_in_order res) :: user_info)
          end
      end
  end.

(** The statement has no ORDER BY: the rows come in the store's order. *)
Definition get_room_user_info (room_id : Z) : M (list RoomMemberInfo) :=
  engine_begin (
    rid <- lift (bindparam [("room_id", room_id)] "room_id") ;;
    result <- query (select_member_by_room rid) ;;
    lift (get_room_user_info_loop result)).

(** [WaitRoomStatus(result)] where [result] is a result row, not an
    integer: no member has a row as its value. *)
Definition WaitRoomStatus_call (value : Row) : outcome (option WaitRoomStatus) :=
  Raise ValueError.

(** The statement's bind parameter is [:room_id]; the dictionary passed is
    [{"id": room_id}]. *)
Definition get_room_status (room_id : Z) : M (option WaitRoomStatus) :=
  engine_begin (
    rid <- lift (bindparam [("id", room_id)] "room_id") ;;
    rows <- query (fun db => map (fun r => [r_status r])
                                 (select_room_by_id rid db)) ;;
    result <- lift (one rows) ;;
    lift (WaitRoomStatus_call result)).

Definition update_room_status (room_id : Z) (status : WaitRoomStatus)
  : M unit :=
  engine_begin (
    st <- lift (bindparam [("status", int_WaitRoomStatus status)] "status") ;;
    update (update_room_set_status st)).

(** Same dictionary key as [get_room_status]. *)
Definition get_room_host (room_id : Z) : M Row :=
  engine_begin (
    rid <- lift (bindparam [("id", room_id)] "room_id") ;;
    rows <- query (fun db => map (fun r => [r_room_master r])
                                 (select_room_by_id rid db)) ;;
    result <- lift (one_or_none rows) ;;
    match result with
    | None => raise Exception
    | Some row => ret row
    end).

Record UserList := mk_UserList
  { ul_id : Z; ul_name : string; ul_leader_card_id : Z;
    ul_difficulty : LiveDifficulty; ul_is_host : bool }.

(** [for users in user_info] where [user_info] is the [JoinRoomResult]
    that [get_upto_member_room] returned: an enumeration member is not
    iterable. *)
Definition iter_JoinRoomResult (user_info : JoinRoomResult)
  : outcome (list UserList) :=
  Raise TypeError.

(** [host == users.id]: a result row compared with an integer. *)
Definition Row_eq_int (host : Row) (i : Z) : bool := false.

Definition room_wait (room_id : Z) : M (option WaitRoomStatus * list UserList) :=
  status <- get_room_status room_id ;;
  match status with
  | None => raise Exception
  | Some _ =>
      host <- get_room_host room_id ;;
      user_info <- get_upto_member_room room_id ;;
      users <- lift (iter_JoinRoomResult user_info) ;;
      ret (status,
           map (fun users =>
                  mk_UserList (ul_id users) (ul_name users)
                              (ul_leader_card_id users) (ul_difficulty users)
                              (if Row_eq_int host (ul_id users)
                               then true else false))
               users)
  end.

(** ** The operations as one type *)

Inductive operation :=
| OpCreateRoom (token : string) (live_id : Z) (difficulty : LiveDifficulty)
| OpSearchRoom (live_id : Z)
| OpJoinRoom (token : string) (room_id : Z)
| OpRoomWait (room_id : Z)
| OpUpdateRoomStatus (room_id : Z) (status : WaitRoomStatus)
| OpDowncountJoinedCount (room_id : Z).

(** The database an operation leaves behind, whether it returns or raises. *)
Definition exec (op : operation) (db : database) : database :=
  match op with
  | OpCreateRoom token live_id difficulty =>
      snd (create_room token live_id difficulty db)
  | OpSearchRoom live_id => snd (search_room live_id db)
  | OpJoinRoom token room_id => snd (join_room token room_id db)
  | OpRoomWait room_id => snd (room_wait room_id db)
  | OpUpdateRoomStatus room_id status =>
      snd (update_room_status room_id status db)
  | OpDowncountJoinedCount room_id => snd (downcount_joined_count room_id db)
  end.

Definition exec_all (ops : list operation) (db : database) : database :=
  fold_left (fun db op => exec op db) ops db.

(** ** Properties of a database the claims speak about *)

Definition capacity : Z := 4.

(** The number of [room_member] rows of a room. *)
Definition member_count (room_id : Z) (db : database) : Z :=
  Z.of_nat (List.length (select_member_by_room room_id db)).

(** The [in_order] values of a room's members, in insertion order. *)
Definition join_orders (room_id : Z) (db : database) : list Z :=
  map m_in_order (select_member_by_room room_id db).

(** The list 1, 2, ..., n. *)
Definition one_up_to (n : Z) : list Z := map Z.of_nat (seq 1 (Z.to_nat n)).

(** Ids handed out by the store lie below the counter of the room table,
    and every membership refers to an id that was handed out. *)
Definition ids_issued (db : database) : Prop :=
  (forall r, In r (room db) -> r_id r < room_auto_increment db) /\
  (forall m, In m (room_member db) -> m_room_id m < room_auto_increment db).

Definition capacity_invariant (db : database) : Prop :=
  forall r, In r (room db) ->
    0 <= r_joined_user_count r <= capacity /\
    r_joined_user_count r = member_count (r_id r) db.

Definition join_order_invariant (db : database) : Prop :=
  forall r, In r (room db) ->
    join_orders (r_id r) db = one_up_to (r_joined_user_count r).

(** A token resolves to a player when exactly one user row carries it. *)
Definition resolves (token : string) (db : database) (u : SafeUser) : Prop :=
  select_user_by_token token db = [u].

Definition unresolved (token : string) (db : database) : Prop :=
  select_user_by_token token db = [].

(** The room with a given id, when exactly one row carries it. *)
Definition room_is (room_id : Z) (db : database) (r : room_row) : Prop :=
  select_room_by_id room_id db = [r].

(** ** What the two writing functions do, by the rows found *)

(** What [join_room] does, by the rows the two look-ups find. *)
Definition join_room_result (token : string) (room_id : Z) (db : database)
  : outcome JoinRoomResult * database :=
  match select_user_by_token token db with
  | _ :: _ :: _ => (Raise MultipleResultsFound, db)
  | users =>
      match one (select_room_by_id room_id db) with
      | Raise e => (Raise e, db)
      | Return r =>
          let c := r_joined_user_count r in
          if (0 <=? c) && (c <? 4) then
            match users with
            | u :: _ =>
                (Return Ok,
                 update_room_upcount room_id
                   (insert_member room_id (id u) 1 (c + 1) db))
            | [] => (Raise AttributeError, db)
            end
          else (Return (judge c), db)
      end
  end.

(** What [create_room] does, by the rows the user look-up finds. *)
Definition create_room_result (token : string) (live_id : Z)
  (difficulty : LiveDifficulty) (db : database) : outcome Z * database :=
  match select_user_by_token token db with
  | [] => (Raise InvalidToken, db)
  | [u] =>
      (Return (room_auto_increment db),
       insert_member (room_auto_increment db) (id u)
         (int_LiveDifficulty difficulty) room_member_in_order_default
         (insert_room live_id (id u) 1 1 db))
  | _ :: _ :: _ => (Raise MultipleResultsFound, db)
  end.

(** ** The claims in the words of the specification, and their vocabulary *)

(** The admission outcomes the specification names. *)
Module Spec.
Inductive AdmissionOutcome := Ok | RoomFull | Disbanded | AlreadyJoined | OtherError.
End Spec.

(** The outcome of the specification a [JoinRoomResult] stands for. *)
Definition admission_outcome (j : JoinRoomResult) : Spec.AdmissionOutcome :=
  match j with
  | Ok => Spec.Ok
  | RoomFull => Spec.RoomFull
  | Disbanded => Spec.Disbanded
  | OtherError => Spec.OtherError
  end.

(** The token is carried by at most one user row. *)
Definition unambiguous (token : string) (db : database) : Prop :=
  (List.length (select_user_by_token token db) <= 1)%nat.

(** The member rows of one player in one room. *)
Definition player_rows (user_id room_id : Z) (db : database)
  : list room_member_row :=
  filter (fun m => (m_room_id m =? room_id) && (m_user_id m =? user_id))
         (room_member db).

Definition holds_membership (user_id room_id : Z) (db : database) : Prop :=
  player_rows user_id room_id db <> [].

(** C2 as the specification words it: a call on a room whose status is
    Dissolution returns Disbanded and writes nothing. *)
Definition dissolution_finality (token : string) (room_id : Z) (db : database)
  : Prop :=
  forall r, room_is room_id db r ->
            r_status r = int_WaitRoomStatus Dissolution ->
            join_room token room_id db = (Return Disbanded, db).

(** C4 as the specification words it: a second call by a member returns
    AlreadyJoined and leaves the member rows as they were. *)
Definition no_double_admission (token : string) (room_id : Z) (db : database)
  : Prop :=
  forall u, resolves token db u -> holds_membership (id u) room_id db ->
    exists j db',
      join_room token room_id db = (Return j, db') /\
      admission_outcome j = Spec.AlreadyJoined /\
      room_member db' = room_member db.

(** C6 as the specification words it: the ids returned are those of the
    rooms of the song that are Waiting and hold 1 to capacity - 1 members. *)
Definition search_waiting_rooms (live_id : Z) (db : database) : Prop :=
  exists ids,
    search_room live_id db = (Return (Some ids), db) /\
    forall room_id,
      In room_id ids <->
      exists r, In r (room db) /\ r_id r = room_id /\ r_live_id r = live_id /\
                r_status r = int_WaitRoomStatus Waiting /\
                0 < r_joined_user_count r < capacity.

(** C10 as the specification words it, for the joining player: the member
    row of a successful join carries the difficulty the player selected. *)
Definition join_stores_selected (selected : LiveDifficulty) (token : string)
  (room_id : Z) (db : database) : Prop :=
  forall db',
    join_room token room_id db = (Return Ok, db') ->
    exists m, room_member db' = room_member db ++ [m] /\
              m_difficulty m = int_LiveDifficulty selected.

(** ** The two phases of a join *)

(** The reads of [join_room]: the verdict, or the arguments of the write. *)
Definition join_room_decide (token : string) (room_id : Z)
  : M (JoinRoomResult + Z * Z) :=
  user <- _get_user_by_token token ;;
  judge_join <- get_upto_member_room room_id ;;
  if JoinRoomResult_eqb judge_join Ok then
    user_count <- get_room_user_count room_id ;;
    user_id <- lift (attr_id user) ;;
    ret (inr (user_id, user_count + 1))
  else ret (inl judge_join).

(** The write of [join_room] on what was decided. *)
Definition join_room_write (room_id : Z) (decided : JoinRoomResult + Z * Z)
  : M JoinRoomResult :=
  match decided with
  | inl judge_join => ret judge_join
  | inr (user_id, in_order) =>
      result <- insert_room_member room_id user_id in_order ;;
      match result with
      | None => ret OtherError
      | Some _ => ret Ok
      end
  end.

(** Two overlapping [join_room] calls on one room, in the schedule where
    the first caller reads, the second caller reads, the first writes and
    the second writes.  Each caller gets its own outcome; a caller whose
    reads raise writes nothing. *)
Definition interleaved_joins (token1 token2 : string) (room_id : Z)
  (db : database)
  : (outcome JoinRoomResult * outcome JoinRoomResult) * database :=
  let (decided1, db1) := join_room_decide token1 room_id db in
  let (decided2, db2) := join_room_decide token2 room_id db1 in
  let (result1, db3) :=
    match decided1 with
    | Return d => join_room_write room_id d db2
    | Raise e => (Raise e, db2)
    end in
  let (result2, db4) :=
    match decided2 with
    | Return d => join_room_write room_id d db3
    | Raise e => (Raise e, db3)
    end in
  ((result1, result2), db4).

(** ** Example databases *)

Definition players : list user_row :=
  [mk_user 1 "A" "token-a" 10; mk_user 2 "B" "token-b" 11;
   mk_user 3 "C" "token-c" 12; mk_user 4 "D" "token-d" 13;
   mk_user 5 "E" "token-e" 14].

(** No room yet. *)
Definition db_start : database := mk_db players [] [] 1.

(** Room 1 for song 5, created by A on hard. *)
Definition db_created : database :=
  mk_db players [mk_room 1 5 1 1 1] [mk_member 1 1 2 1] 2.

(** B has joined room 1. *)
Definition db_joined : database :=
  mk_db players [mk_room 1 5 1 2 1]
        [mk_member 1 1 2 1; mk_member 1 2 1 2] 2.

(** Room 1 is full. *)
Definition db_full : database :=
  mk_db players [mk_room 1 5 1 4 1]
        [mk_member 1 1 2 1; mk_member 1 2 1 2;
         mk_member 1 3 1 3; mk_member 1 4 1 4] 2.

(** Room 1 holds A and B and has status Dissolution. *)
Definition db_dissolved : database :=
  mk_db players [mk_room 1 5 1 2 3]
        [mk_member 1 1 2 1; mk_member 1 2 1 2] 2.

(** Room 1 holds A, B and C. *)
Definition db_three : database :=
  mk_db players [mk_room 1 5 1 3 1]
        [mk_member 1 1 2 1; mk_member 1 2 1 2; mk_member 1 3 1 3] 2.

(** Rooms 1 and 2, both Waiting. *)
Definition db_two_rooms : database :=
  mk_db players [mk_room 1 5 1 2 1; mk_room 2 5 3 1 1]
        [mk_member 1 1 2 1; mk_member 1 2 1 2; mk_member 2 3 1 1] 3.

(** ** The user functions of model.py *)

(** A value of a parameter dictionary whose entries differ in type. *)
Inductive pyvalue :=
| PyStr (s : string)
| PyInt (z : Z).

(** [INSERT INTO user (name, token, leader_card_id)]: the row gets the id
    the store generates for it. *)
Definition insert_user (lastrowid : Z) (name token : string)
  (leader_card_id : Z) (db : database) : database :=
  mk_db (user db ++ [mk_user lastrowid name token leader_card_id])
        (room db) (room_member db) (room_auto_increment db).

(** [UPDATE user SET name=:name, leader_card_id=:leader_card_id
     WHERE token=:token] *)
Definition update_user_rows (token name : string) (leader_card_id : Z)
  (db : database) : database :=
  mk_db (map (fun u => if String.eqb (u_token u) token
                       then mk_user (u_id u) name (u_token u) leader_card_id
                       else u)
             (user db))
        (room db) (room_member db) (room_auto_increment db).

(** [create_user]: [uuid4] is the string [str(uuid.uuid4())] draws and
    [lastrowid] the primary key the store generates for the new row; both
    come from outside the function and are arguments here.  Whether the
    table refuses a token some row already carries is decided by its
    declaration, which is not part of the sources; the model appends the
    row, and what is proved of [create_user] is for a token no row
    carries.  The dictionary always holds two strings and an integer, so
    the last branch is never taken. *)
Definition create_user (uuid4 : string) (lastrowid : Z) (name : string)
  (leader_card_id : Z) : M string :=
  let token := uuid4 in
  engine_begin (
    let parameters := [("name", PyStr name); ("token", PyStr token);
                       ("leader_card_id", PyInt leader_card_id)] in
    n <- lift (bindparam parameters "name") ;;
    t <- lift (bindparam parameters "token") ;;
    l <- lift (bindparam parameters "leader_card_id") ;;
    match n, t, l with
    | PyStr n, PyStr t, PyInt l => update (insert_user lastrowid n t l)
    | _, _, _ => raise ProgrammingError
    end) ;;;
  ret token.

Definition update_user (token name : string) (leader_card_id : Z) : M unit :=
  engine_begin (
    let parameters := [("name", PyStr name);
                       ("leader_card_id", PyInt leader_card_id);
                       ("token", PyStr token)] in
    n <- lift (bindparam parameters "name") ;;
    l <- lift (bindparam parameters "leader_card_id") ;;
    t <- lift (bindparam parameters "token") ;;
    match n, l, t with
    | PyStr n, PyInt l, PyStr t => update (update_user_rows t n l)
    | _, _, _ => raise ProgrammingError
    end).

(** ** Further properties of a database *)

(** Every member row carries a value of [LiveDifficulty]. *)
Definition difficulties_valid (db : database) : Prop :=
  forall m, In m (room_member db) -> m_difficulty m = 1 \/ m_difficulty m = 2.

(** The member row as [get_room_user_info] returns it. *)
Definition info_row (i : RoomMemberInfo) : room_member_row :=
  mk_member (rm_room_id i) (rm_user_id i)
            (int_LiveDifficulty (rm_difficulty i)) (rm_in_order i).

(** The columns of a room row that only [create_room] sets. *)
Definition room_identity (r : room_row) : Z * Z * Z :=
  (r_id r, r_live_id r, r_room_master r).

(** The ids [search_room] returns. *)
Definition listed (live_id : Z) (db : database) : list Z :=
  map r_id (select_room_by_live_id live_id db).

(** Room 1 holds a member row whose difficulty is no [LiveDifficulty]. *)
Definition db_bad_difficulty : database :=
  mk_db players [mk_room 1 5 1 1 1] [mk_member 1 1 7 1] 2.

(** ** Running the functions *)

Lemma get_user_resolved token db u :
  resolves token db u -> _get_user_by_token token db = (Return (Some u), db).
Proof.
  unfold resolves, _get_user_by_token, bind, lift, query. cbn.
  intros ->. reflexivity.
Qed.

Lemma get_user_unresolved token db :
  unresolved token db -> _get_user_by_token token db = (Return None, db).
Proof.
  unfold unresolved, _get_user_by_token, bind, lift, query. cbn.
  intros ->. reflexivity.
Qed.

Lemma get_user_state token db : snd (_get_user_by_token token db) = db.
Proof.
  unfold _get_user_by_token, bind, lift, query. cbn.
  destruct (select_user_by_token token db) as [|u [|v l]]; reflexivity.
Qed.

Lemma get_user_ambiguous token db a b l :
  select_user_by_token token db = a :: b :: l ->
  _get_user_by_token token db = (Raise MultipleResultsFound, db).
Proof.
  unfold _get_user_by_token, bind, lift, query. cbn.
  intros ->. reflexivity.
Qed.

Lemma get_upto_member_room_run room_id db :
  get_upto_member_room room_id db =
  (match one (select_room_by_id room_id db) with
   | Return r => Return (judge (r_joined_user_count r))
   | Raise e => Raise e
   end, db).
Proof.
  unfold get_upto_member_room, engine_begin, bind, lift, query, ret. cbn.
  destruct (one (select_room_by_id room_id db)); reflexivity.
Qed.

Lemma get_room_user_count_run room_id db :
  get_room_user_count room_id db =
  (match one (select_room_by_id room_id db) with
   | Return r => Return (r_joined_user_count r)
   | Raise e => Raise e
   end, db).
Proof.
  unfold get_room_user_count, engine_begin, bind, lift, query, ret. cbn.
  destruct (one (select_room_by_id room_id db)); reflexivity.
Qed.

Lemma insert_room_member_run room_id user_id user_count db :
  insert_room_member room_id user_id user_count db =
  (Return (Some 1),
   update_room_upcount room_id (insert_member room_id user_id 1 user_count db)).
Proof. reflexivity. Qed.

Lemma judge_Ok c : judge c = Ok <-> 0 <= c < 4.
Proof.
  unfold judge.
  destruct (Z.gtb_spec c 4); [split; [discriminate | lia]|].
  destruct (Z.eqb_spec c 4); [split; [discriminate | lia]|].
  destruct (Z.geb_spec c 0); [split; [lia | reflexivity]|].
  destruct (Z.ltb_spec c 0); split; try discriminate; lia.
Qed.

Lemma judge_Disbanded c : judge c = Disbanded <-> c < 0.
Proof.
  unfold judge.
  destruct (Z.gtb_spec c 4); [split; [discriminate | lia]|].
  destruct (Z.eqb_spec c 4); [split; [discriminate | lia]|].
  destruct (Z.geb_spec c 0); [split; [discriminate | lia]|].
  destruct (Z.ltb_spec c 0); split; try discriminate; try reflexivity; lia.
Qed.

Lemma judge_RoomFull c : judge c = RoomFull <-> c = 4.
Proof.
  unfold judge.
  destruct (Z.gtb_spec c 4); [split; [discriminate | lia]|].
  destruct (Z.eqb_spec c 4); [split; [lia | reflexivity]|].
  destruct (Z.geb_spec c 0); [split; [discriminate | lia]|].
  destruct (Z.ltb_spec c 0); split; try discriminate; lia.
Qed.

Lemma JoinRoomResult_eqb_Ok j : JoinRoomResult_eqb j Ok = true <-> j = Ok.
Proof. destruct j; cbn; split; congruence. Qed.

Lemma select_room_by_id_insert_member rid a b c d db :
  select_room_by_id rid (insert_member a b c d db) = select_room_by_id rid db.
Proof. reflexivity. Qed.

Lemma join_room_run token room_id db :
  join_room token room_id db = join_room_result token room_id db.
Proof.
  assert (forall r, (0 <=? r_joined_user_count r) && (r_joined_user_count r <? 4)
                    = JoinRoomResult_eqb (judge (r_joined_user_count r)) Ok)
    as Hopen.
  { intros r. apply eq_true_iff_eq.
    rewrite JoinRoomResult_eqb_Ok, judge_Ok, andb_true_iff, Z.leb_le, Z.ltb_lt.
    reflexivity. }
  unfold join_room_result, join_room, engine_begin.
  unfold bind at 1.
  destruct (select_user_by_token token db) as [|u [|v l]] eqn:E.
  - rewrite (get_user_unresolved _ _ E).
    unfold bind at 1. rewrite get_upto_member_room_run.
    destruct (one (select_room_by_id room_id db)) as [r|e] eqn:Hr; [|reflexivity].
    rewrite Hopen.
    destruct (JoinRoomResult_eqb (judge (r_joined_user_count r)) Ok) eqn:Hj;
      [|reflexivity].
    unfold bind. rewrite get_room_user_count_run, Hr. reflexivity.
  - rewrite (get_user_resolved _ _ _ E).
    unfold bind at 1. rewrite get_upto_member_room_run.
    destruct (one (select_room_by_id room_id db)) as [r|e] eqn:Hr; [|reflexivity].
    rewrite Hopen.
    destruct (JoinRoomResult_eqb (judge (r_joined_user_count r)) Ok) eqn:Hj;
      [|reflexivity].
    apply JoinRoomResult_eqb_Ok in Hj.
    unfold bind. rewrite get_room_user_count_run, Hr. cbn.
    rewrite Hj. reflexivity.
  - rewrite (get_user_ambiguous _ _ _ _ _ E). reflexivity.
Qed.

Lemma create_room_run token live_id difficulty db :
  create_room token live_id difficulty db =
  create_room_result token live_id difficulty db.
Proof.
  unfold create_room_result, create_room, engine_begin.
  unfold bind at 1.
  destruct (select_user_by_token token db) as [|u [|v l]] eqn:E.
  - rewrite (get_user_unresolved _ _ E). reflexivity.
  - rewrite (get_user_resolved _ _ _ E). reflexivity.
  - rewrite (get_user_ambiguous _ _ _ _ _ E). reflexivity.
Qed.

Lemma search_room_run live_id db :
  search_room live_id db =
  (Return (Some (map r_id (select_room_by_live_id live_id db))), db).
Proof. reflexivity. Qed.

Lemma room_wait_run room_id db :
  room_wait room_id db = (Raise StatementError, db).
Proof. reflexivity. Qed.

Lemma update_room_status_run room_id status db :
  update_room_status room_id status db =
  (Return tt, update_room_set_status (int_WaitRoomStatus status) db).
Proof. reflexivity. Qed.

Lemma downcount_joined_count_run room_id db :
  downcount_joined_count room_id db = (Raise StatementError, db).
Proof. reflexivity. Qed.

(** [join_room] either leaves the database as it was or admits: the room
    is found with a count in 0..3 and the caller's token resolves. *)
Lemma join_room_effect token room_id db :
  snd (join_room token room_id db) = db \/
  exists u r,
    resolves token db u /\ room_is room_id db r /\
    0 <= r_joined_user_count r < 4 /\
    join_room token room_id db =
    (Return Ok,
     update_room_upcount room_id
       (insert_member room_id (id u) 1 (r_joined_user_count r + 1) db)).
Proof.
  rewrite join_room_run. unfold join_room_result.
  destruct (select_user_by_token token db) as [|u [|v l]] eqn:E;
    [| |left; reflexivity];
    (destruct (select_room_by_id room_id db) as [|r [|r' rs]] eqn:Hr;
     cbn [one]; [left; reflexivity | | left; reflexivity]);
    (destruct ((0 <=? r_joined_user_count r) && (r_joined_user_count r <? 4))
       eqn:Hc; [|left; reflexivity]).
  - left; reflexivity.
  - right. exists u, r. apply andb_true_iff in Hc. destruct Hc as [H1 H2].
    apply Z.leb_le in H1. apply Z.ltb_lt in H2.
    repeat split; try assumption.
Qed.

Lemma create_room_effect token live_id difficulty db :
  snd (create_room token live_id difficulty db) = db \/
  exists u,
    resolves token db u /\
    create_room token live_id difficulty db =
    (Return (room_auto_increment db),
     insert_member (room_auto_increment db) (id u)
       (int_LiveDifficulty difficulty) room_member_in_order_default
       (insert_room live_id (id u) 1 1 db)).
Proof.
  rewrite create_room_run. unfold create_room_result.
  destruct (select_user_by_token token db) as [|u [|v l]] eqn:E.
  - left; reflexivity.
  - right. exists u. split; [exact E | reflexivity].
  - left; reflexivity.
Qed.

(** ** The member rows of a room under the writes *)

Lemma select_member_insert_member x room_id user_id difficulty in_order db :
  select_member_by_room x (insert_member room_id user_id difficulty in_order db)
  = select_member_by_room x db ++
    (if room_id =? x
     then [mk_member room_id user_id difficulty in_order] else []).
Proof.
  unfold select_member_by_room, insert_member. cbn [room_member].
  rewrite filter_app. cbn. reflexivity.
Qed.

Lemma select_member_upcount x room_id db :
  select_member_by_room x (update_room_upcount room_id db)
  = select_member_by_room x db.
Proof. reflexivity. Qed.

Lemma select_member_insert_room x a b c d db :
  select_member_by_room x (insert_room a b c d db) = select_member_by_room x db.
Proof. reflexivity. Qed.

Lemma select_member_none x db :
  (forall m, In m (room_member db) -> m_room_id m < x) ->
  select_member_by_room x db = [].
Proof.
  unfold select_member_by_room. intros H.
  induction (room_member db) as [|m l IH]; [reflexivity|].
  cbn. destruct (Z.eqb_spec (m_room_id m) x) as [e|_].
  - specialize (H m (or_introl eq_refl)). lia.
  - apply IH. intros m' Hm'. apply H. now right.
Qed.

Lemma room_is_In room_id db r :
  room_is room_id db r -> In r (room db) /\ r_id r = room_id.
Proof.
  unfold room_is, select_room_by_id. intros H.
  assert (In r (filter (fun r => r_id r =? room_id) (room db))) as Hin
      by (rewrite H; now left).
  apply filter_In in Hin. destruct Hin as [Hin Hid].
  apply Z.eqb_eq in Hid. now split.
Qed.

Lemma room_is_unique room_id db r r0 :
  room_is room_id db r -> In r0 (room db) -> r_id r0 = room_id -> r0 = r.
Proof.
  unfold room_is, select_room_by_id. intros H Hin Hid.
  assert (In r0 (filter (fun r => r_id r =? room_id) (room db))) as Hf.
  { apply filter_In. split; [assumption | now apply Z.eqb_eq]. }
  rewrite H in Hf. destruct Hf as [Hf|[]]. now symmetry.
Qed.

Lemma one_up_to_succ n : 0 <= n -> one_up_to (n + 1) = one_up_to n ++ [n + 1].
Proof.
  intros Hn. unfold one_up_to.
  replace (Z.to_nat (n + 1)) with (Z.to_nat n + 1)%nat by lia.
  rewrite seq_app, map_app. cbn. f_equal. f_equal. lia.
Qed.

Lemma one_up_to_length n : 0 <= n -> Z.of_nat (List.length (one_up_to n)) = n.
Proof.
  intros Hn. unfold one_up_to. rewrite length_map, length_seq. lia.
Qed.

Lemma one_up_to_NoDup n : NoDup (one_up_to n).
Proof.
  unfold one_up_to. generalize (seq_NoDup (Z.to_nat n) 1).
  induction (seq 1 (Z.to_nat n)) as [|a l IH]; cbn; intros H.
  - constructor.
  - inversion H as [|? ? Ha Hl]; subst. constructor.
    + intros Hin. apply in_map_iff in Hin. destruct Hin as (b & Hb & Hin).
      apply Nat2Z.inj in Hb. subst b. contradiction.
    + apply IH, Hl.
Qed.

(** ** The three writes and the invariants *)

Section Admit.
(** The write of a successful [join_room]: a member row for the room
    and the room's count moved up by one. *)
Variables (room_id user_id difficulty in_order : Z) (db : database).
Variable r : room_row.
Hypothesis Hroom : room_is room_id db r.

Let db' := update_room_upcount room_id
             (insert_member room_id user_id difficulty in_order db).

Lemma admit_rooms r' :
  In r' (room db') ->
  (r_id r' = room_id /\ r_joined_user_count r' = r_joined_user_count r + 1) \/
  (r_id r' <> room_id /\ In r' (room db)).
Proof.
  unfold db', update_room_upcount. cbn [room insert_member].
  intros Hin. apply in_map_iff in Hin. destruct Hin as (r0 & Hr0 & Hin).
  destruct (Z.eqb_spec (r_id r0) room_id) as [e|n]; subst r'.
  - left. cbn. split; [exact e|].
    now rewrite (room_is_unique _ _ _ _ Hroom Hin e).
  - right. now split.
Qed.

Lemma admit_members x :
  select_member_by_room x db' =
  select_member_by_room x db ++
  (if room_id =? x
   then [mk_member room_id user_id difficulty in_order] else []).
Proof.
  unfold db'. rewrite select_member_upcount.
  apply select_member_insert_member.
Qed.

Lemma ids_issued_admit : ids_issued db -> ids_issued db'.
Proof.
  intros [Hr Hm]. split.
  - intros r' Hin. change (room_auto_increment db') with (room_auto_increment db).
    destruct (admit_rooms _ Hin) as [[e _]|[_ Hin']].
    + destruct (room_is_In _ _ _ Hroom) as [Hin0 e0].
      specialize (Hr _ Hin0). lia.
    + now apply Hr.
  - intros m Hin. change (room_auto_increment db') with (room_auto_increment db).
    unfold db' in Hin. cbn in Hin. apply in_app_iff in Hin.
    destruct Hin as [Hin|[<-|[]]]; [now apply Hm|]. cbn.
    destruct (room_is_In _ _ _ Hroom) as [Hin0 e0].
    specialize (Hr _ Hin0). lia.
Qed.

Lemma capacity_admit :
  0 <= r_joined_user_count r < 4 ->
  capacity_invariant db -> capacity_invariant db'.
Proof.
  intros Hc Hinv r' Hin. unfold member_count. rewrite admit_members.
  destruct (room_is_In _ _ _ Hroom) as [Hin0 e0].
  destruct (admit_rooms _ Hin) as [[e ->]|[n Hin']].
  - rewrite e, Z.eqb_refl, length_app. cbn [List.length].
    destruct (Hinv _ Hin0) as [_ Hn]. unfold member_count in Hn.
    rewrite e0 in Hn. unfold capacity. lia.
  - destruct (Z.eqb_spec room_id (r_id r')) as [e|_]; [congruence|].
    rewrite app_nil_r. now apply Hinv.
Qed.

Lemma join_order_admit :
  0 <= r_joined_user_count r ->
  in_order = r_joined_user_count r + 1 ->
  join_order_invariant db -> join_order_invariant db'.
Proof.
  intros Hc Hord Hinv r' Hin. unfold join_orders. rewrite admit_members.
  destruct (room_is_In _ _ _ Hroom) as [Hin0 e0].
  destruct (admit_rooms _ Hin) as [[e ->]|[n Hin']].
  - rewrite e, Z.eqb_refl, map_app. cbn [map m_in_order].
    rewrite one_up_to_succ by assumption.
    specialize (Hinv _ Hin0). unfold join_orders in Hinv.
    rewrite e0 in Hinv. rewrite Hinv, Hord. reflexivity.
  - destruct (Z.eqb_spec room_id (r_id r')) as [e|_]; [congruence|].
    rewrite app_nil_r. now apply Hinv.
Qed.
End Admit.

Section NewRoom.
(** The write of a successful [create_room]: a room row with the next
    id and one member row for it. *)
Variables (live_id user_id count status difficulty in_order : Z).
Variable db : database.
Hypothesis Hids : ids_issued db.

Let db' := insert_member (room_auto_increment db) user_id difficulty in_order
             (insert_room live_id user_id count status db).

Lemma new_room_rooms r' :
  In r' (room db') ->
  In r' (room db) \/
  r' = mk_room (room_auto_increment db) live_id user_id count status.
Proof.
  unfold db'. cbn. intros Hin. apply in_app_iff in Hin.
  destruct Hin as [Hin|[<-|[]]]; [now left | now right].
Qed.

Lemma new_room_members x :
  select_member_by_room x db' =
  if room_auto_increment db =? x
  then [mk_member (room_auto_increment db) user_id difficulty in_order]
  else select_member_by_room x db.
Proof.
  unfold db'. rewrite select_member_insert_member, select_member_insert_room.
  destruct (Z.eqb_spec (room_auto_increment db) x) as [<-|_].
  - rewrite select_member_none; [reflexivity | apply Hids].
  - apply app_nil_r.
Qed.

Lemma ids_issued_new_room : ids_issued db'.
Proof.
  destruct Hids as [Hr Hm]. split.
  - intros r' Hin. change (room_auto_increment db')
      with (room_auto_increment db + 1).
    destruct (new_room_rooms _ Hin) as [Hin'| ->].
    + specialize (Hr _ Hin'). lia.
    + cbn. lia.
  - intros m Hin. change (room_auto_increment db')
      with (room_auto_increment db + 1).
    unfold db' in Hin. cbn in Hin. apply in_app_iff in Hin.
    destruct Hin as [Hin|[<-|[]]].
    + specialize (Hm _ Hin). lia.
    + cbn. lia.
Qed.

Lemma capacity_new_room :
  count = 1 -> capacity_invariant db -> capacity_invariant db'.
Proof.
  intros Hcount Hinv r' Hin. unfold member_count. rewrite new_room_members.
  destruct (new_room_rooms _ Hin) as [Hin'| ->].
  - destruct (Z.eqb_spec (room_auto_increment db) (r_id r')) as [e|_].
    + destruct Hids as [Hr _]. specialize (Hr _ Hin'). lia.
    + now apply Hinv.
  - cbn [r_id r_joined_user_count]. rewrite Z.eqb_refl. cbn [List.length].
    unfold capacity. lia.
Qed.

Lemma join_order_new_room :
  count = 1 -> in_order = 1 ->
  join_order_invariant db -> join_order_invariant db'.
Proof.
  intros Hcount Hord Hinv r' Hin. unfold join_orders.
  rewrite new_room_members.
  destruct (new_room_rooms _ Hin) as [Hin'| ->].
  - destruct (Z.eqb_spec (room_auto_increment db) (r_id r')) as [e|_].
    + destruct Hids as [Hr _]. specialize (Hr _ Hin'). lia.
    + now apply Hinv.
  - cbn [r_id r_joined_user_count]. rewrite Z.eqb_refl, Hcount, Hord.
    reflexivity.
Qed.
End NewRoom.

Section SetStatus.
(** The write of [update_room_status]. *)
Variables (status : Z) (db : database).

Let db' := update_room_set_status status db.

Lemma set_status_rooms r' :
  In r' (room db') ->
  exists r0, In r0 (room db) /\ r_id r' = r_id r0 /\
             r_joined_user_count r' = r_joined_user_count r0 /\
             r_status r' = status.
Proof.
  unfold db', update_room_set_status. cbn [room]. intros Hin.
  apply in_map_iff in Hin. destruct Hin as (r0 & <- & Hin).
  exists r0. repeat split; assumption.
Qed.

Lemma ids_issued_set_status : ids_issued db -> ids_issued db'.
Proof.
  intros [Hr Hm]. split; [|exact Hm].
  intros r' Hin. destruct (set_status_rooms _ Hin) as (r0 & Hin0 & -> & _).
  now apply Hr.
Qed.

Lemma capacity_set_status : capacity_invariant db -> capacity_invariant db'.
Proof.
  intros Hinv r' Hin.
  destruct (set_status_rooms _ Hin) as (r0 & Hin0 & -> & -> & _).
  now apply Hinv.
Qed.

Lemma join_order_set_status :
  join_order_invariant db -> join_order_invariant db'.
Proof.
  intros Hinv r' Hin.
  destruct (set_status_rooms _ Hin) as (r0 & Hin0 & -> & -> & _).
  now apply Hinv.
Qed.
End SetStatus.

(** ** Successful calls *)

Lemma open_true c : (0 <=? c) && (c <? 4) = true <-> 0 <= c < 4.
Proof. rewrite andb_true_iff, Z.leb_le, Z.ltb_lt. reflexivity. Qed.

Lemma open_false c : (0 <=? c) && (c <? 4) = false -> judge c <> Ok.
Proof.
  intros H Hj. apply judge_Ok in Hj. apply open_true in Hj. congruence.
Qed.

Lemma join_room_Ok token room_id db db' :
  join_room token room_id db = (Return Ok, db') ->
  exists u r,
    resolves token db u /\ room_is room_id db r /\
    0 <= r_joined_user_count r < 4 /\
    db' = update_room_upcount room_id
            (insert_member room_id (id u) 1 (r_joined_user_count r + 1) db).
Proof.
  rewrite join_room_run. unfold join_room_result. intros H.
  destruct (select_user_by_token token db) as [|u [|v l]] eqn:E;
    [| |discriminate];
    (destruct (select_room_by_id room_id db) as [|r [|r' rs]] eqn:Hr;
     cbn [one] in H; try discriminate);
    (destruct ((0 <=? r_joined_user_count r) && (r_joined_user_count r <? 4))
       eqn:Hc; try discriminate);
    try (injection H as Hj _; now apply open_false in Hc).
  injection H as <-. exists u, r. apply open_true in Hc.
  repeat split; try assumption; lia.
Qed.

Lemma create_room_Return token live_id difficulty db room_id db' :
  create_room token live_id difficulty db = (Return room_id, db') ->
  exists u,
    resolves token db u /\ room_id = room_auto_increment db /\
    db' = insert_member (room_auto_increment db) (id u)
            (int_LiveDifficulty difficulty) room_member_in_order_default
            (insert_room live_id (id u) 1 1 db).
Proof.
  rewrite create_room_run. unfold create_room_result. intros H.
  destruct (select_user_by_token token db) as [|u [|v l]] eqn:E;
    try discriminate.
  injection H as <- <-. exists u. repeat split. exact E.
Qed.

(** ** The scenario of the spec, run on the functions *)

Example scenario_create :
  create_room "token-a" 5 hard db_start = (Return 1, db_created).
Proof. reflexivity. Qed.

Example scenario_join_B :
  join_room "token-b" 1 db_created = (Return Ok, db_joined).
Proof. reflexivity. Qed.

Example scenario_join_C_D :
  exists db3, join_room "token-c" 1 db_joined = (Return Ok, db3) /\
              join_room "token-d" 1 db3 = (Return Ok, db_full).
Proof. eexists. split; reflexivity. Qed.

Example scenario_join_E :
  join_room "token-e" 1 db_full = (Return RoomFull, db_full).
Proof. reflexivity. Qed.

(** Case analysis on membership in an explicit list of rows. *)
Ltac finite_rows H :=
  cbn in H; repeat (destruct H as [H|H]; [subst|]); try contradiction.

Lemma db_joined_ids : ids_issued db_joined.
Proof. split; intros x H; finite_rows H; cbn; lia. Defined.

Lemma db_joined_capacity : capacity_invariant db_joined.
Proof. intros r H. finite_rows H. unfold capacity. cbn. lia. Defined.

Lemma db_joined_join_order : join_order_invariant db_joined.
Proof. intros r H. finite_rows H. reflexivity. Defined.

(** A property every operation preserves holds after any sequence of
    operations. *)
Lemma exec_all_invariant (P : database -> Prop) :
  (forall op db, P db -> P (exec op db)) ->
  forall ops db, P db -> P (exec_all ops db).
Proof.
  intros Hstep ops. induction ops as [|op ops IH]; intros db Hdb.
  - exact Hdb.
  - cbn. apply IH, Hstep, Hdb.
Qed.

(** ** Calls that do not overlap, and the claims that hold *)

(** Run one after the other, the operations (create_room, search_room,
    join_room, room_wait, update_room_status, downcount_joined_count)
    keep, for every room, 0 <= joined_user_count <= 4 and
    joined_user_count equal to the number of room_member rows of that
    room, whether the operation returns or raises; ids handed out by the
    store stay below its counter.  This is what holds of the code when no
    two calls overlap. *)
Theorem sequential_capacity_invariant (op : operation) (db : database) :
  ids_issued db -> capacity_invariant db ->
  ids_issued (exec op db) /\ capacity_invariant (exec op db).
Proof.
  intros Hids Hcap. destruct op as [tok l d|l|tok rid|rid|rid st|rid]; cbn [exec].
  - destruct (create_room_effect tok l d db) as [->|(u & _ & ->)];
      [now split|]. cbn [snd]. split.
    + now apply ids_issued_new_room.
    + now apply capacity_new_room.
  - rewrite search_room_run. now split.
  - destruct (join_room_effect tok rid db) as [->|(u & r & _ & Hr & Hc & ->)];
      [now split|]. cbn [snd]. split.
    + now apply ids_issued_admit with (r := r).
    + now apply capacity_admit with (r := r).
  - rewrite room_wait_run. now split.
  - rewrite update_room_status_run. cbn [snd]. split.
    + now apply ids_issued_set_status.
    + now apply capacity_set_status.
  - rewrite downcount_joined_count_run. now split.
Qed.

Lemma sequential_capacity_invariant_example :
  ids_issued (exec (OpJoinRoom "token-c" 1) db_joined) /\
  capacity_invariant (exec (OpJoinRoom "token-c" 1) db_joined).
Proof.
  apply (sequential_capacity_invariant (OpJoinRoom "token-c" 1) db_joined).
  - exact db_joined_ids.
  - exact db_joined_capacity.
Defined.

(** Run one after the other, the operations keep the in_order values of
    every room's member rows equal to 1, 2, ..., joined_user_count in
    insertion order, hence pairwise distinct; the member row written by
    create_room carries in_order 1 (the column default), and the member
    row written by a join_room that returns Ok carries the
    joined_user_count the call read plus one.  This is what holds of the
    code when no two calls overlap. *)
Theorem sequential_join_order_contiguous (op : operation) (db : database) :
  ids_issued db -> join_order_invariant db ->
  (ids_issued (exec op db) /\ join_order_invariant (exec op db) /\
   forall r, In r (room (exec op db)) ->
             NoDup (join_orders (r_id r) (exec op db))) /\
  (forall token live_id difficulty room_id db',
      create_room token live_id difficulty db = (Return room_id, db') ->
      exists m, room_member db' = room_member db ++ [m] /\
                m_room_id m = room_id /\ m_in_order m = 1) /\
  (forall token room_id db',
      join_room token room_id db = (Return Ok, db') ->
      exists r m, room_is room_id db r /\
                  room_member db' = room_member db ++ [m] /\
                  m_room_id m = room_id /\
                  m_in_order m = r_joined_user_count r + 1).
Proof.
  intros Hids Hord. split; [|split].
  - assert (ids_issued (exec op db) /\ join_order_invariant (exec op db))
      as [Hids' Hord'].
    { destruct op as [tok l d|l|tok rid|rid|rid st|rid]; cbn [exec].
      - destruct (create_room_effect tok l d db) as [->|(u & _ & ->)];
          [now split|]. cbn [snd]. split.
        + now apply ids_issued_new_room.
        + now apply join_order_new_room.
      - rewrite search_room_run. now split.
      - destruct (join_room_effect tok rid db)
          as [->|(u & r & _ & Hr & Hc & ->)]; [now split|]. cbn [snd]. split.
        + now apply ids_issued_admit with (r := r).
        + apply join_order_admit with (r := r); try assumption; lia.
      - rewrite room_wait_run. now split.
      - rewrite update_room_status_run. cbn [snd]. split.
        + now apply ids_issued_set_status.
        + now apply join_order_set_status.
      - rewrite downcount_joined_count_run. now split. }
    split; [exact Hids'|]. split; [exact Hord'|].
    intros r Hin. rewrite (Hord' r Hin). apply one_up_to_NoDup.
  - intros tok l d rid db' Hrun.
    apply create_room_Return in Hrun. destruct Hrun as (u & _ & -> & ->).
    eexists. cbn. repeat split.
  - intros tok rid db' Hrun.
    apply join_room_Ok in Hrun. destruct Hrun as (u & r & _ & Hr & _ & ->).
    exists r. eexists. cbn. repeat split. exact Hr.
Qed.

Lemma sequential_join_order_example :
  join_orders 1 (exec (OpJoinRoom "token-c" 1) db_joined) = [1; 2; 3] /\
  (exists m, room_member db_created = room_member db_start ++ [m] /\
             m_room_id m = 1 /\ m_in_order m = 1) /\
  (exists r m, room_is 1 db_created r /\
               room_member db_joined = room_member db_created ++ [m] /\
               m_room_id m = 1 /\ m_in_order m = r_joined_user_count r + 1).
Proof.
  destruct (sequential_join_order_contiguous (OpJoinRoom "token-c" 1) db_joined
              db_joined_ids db_joined_join_order)
    as [(_ & Hord & _) _].
  destruct (sequential_join_order_contiguous (OpSearchRoom 5) db_start)
    as (_ & Hcreate & _).
  { split; intros x H; finite_rows H. }
  { intros x H; finite_rows H. }
  destruct (sequential_join_order_contiguous (OpSearchRoom 5) db_created)
    as (_ & _ & Hjoin).
  { split; intros x H; finite_rows H; cbn; lia. }
  { intros x H; finite_rows H. reflexivity. }
  split; [|split].
  - apply (Hord (mk_room 1 5 1 3 1)). now left.
  - apply (Hcreate "token-a" 5 hard 1 db_created). reflexivity.
  - apply (Hjoin "token-b" 1 db_joined). reflexivity.
Defined.

(** C7. When the token resolves to a player, create_room returns the new
    room's id and adds exactly one room row (status 1 = Waiting,
    joined_user_count 1, room_master the player) and exactly one member
    row (the player's, for the new room), and changes nothing else; when
    the token resolves to no player it raises InvalidToken and changes
    nothing; and whenever it raises, the database is the one it started
    from. *)
Theorem C7_create_room (token : string) (live_id : Z)
  (difficulty : LiveDifficulty) (db : database) :
  (forall u, resolves token db u ->
     exists db',
       create_room token live_id difficulty db
       = (Return (room_auto_increment db), db') /\
       user db' = user db /\
       room db' = room db ++
                  [mk_room (room_auto_increment db) live_id (id u) 1
                           (int_WaitRoomStatus Waiting)] /\
       room_member db' = room_member db ++
                  [mk_member (room_auto_increment db) (id u)
                             (int_LiveDifficulty difficulty) 1]) /\
  (unresolved token db ->
     create_room token live_id difficulty db = (Raise InvalidToken, db)) /\
  (forall e db',
     create_room token live_id difficulty db = (Raise e, db') -> db' = db).
Proof.
  rewrite create_room_run. unfold create_room_result, resolves, unresolved.
  destruct (select_user_by_token token db) as [|u [|v l]]; repeat split;
    try discriminate; try congruence.
  intros u' [= <-]. eexists. split; [reflexivity|]. cbn. repeat split.
Qed.

Lemma C7_create_room_witness :
  (exists db',
      create_room "token-a" 5 hard db_start = (Return 1, db') /\
      user db' = players /\
      room db' = [mk_room 1 5 1 1 1] /\
      room_member db' = [mk_member 1 1 2 1]) /\
  create_room "no-such-token" 5 hard db_start = (Raise InvalidToken, db_start).
Proof.
  split.
  - apply (proj1 (C7_create_room "token-a" 5 hard db_start)
                 (mk_SafeUser 1 "A" 10)).
    reflexivity.
  - apply (proj1 (proj2 (C7_create_room "no-such-token" 5 hard db_start))).
    reflexivity.
Defined.

(** ** Claims the functions do not meet as stated *)

Lemma join_room_closed token room_id db r :
  unambiguous token db -> room_is room_id db r ->
  ~ 0 <= r_joined_user_count r < 4 ->
  join_room token room_id db = (Return (judge (r_joined_user_count r)), db).
Proof.
  unfold unambiguous, room_is. intros Hu Hr Hc.
  rewrite join_room_run. unfold join_room_result. rewrite Hr. cbn [one].
  destruct ((0 <=? r_joined_user_count r) && (r_joined_user_count r <? 4))
    eqn:E; [apply open_true in E; contradiction|].
  destruct (select_user_by_token token db) as [|u [|v l]];
    try reflexivity. cbn in Hu. lia.
Qed.

Lemma join_room_admits token room_id db u r :
  resolves token db u -> room_is room_id db r ->
  0 <= r_joined_user_count r < 4 ->
  join_room token room_id db =
  (Return Ok,
   update_room_upcount room_id
     (insert_member room_id (id u) 1 (r_joined_user_count r + 1) db)).
Proof.
  unfold resolves, room_is. intros Hu Hr Hc.
  rewrite join_room_run. unfold join_room_result. rewrite Hu, Hr. cbn [one].
  apply open_true in Hc. rewrite Hc. reflexivity.
Qed.

(** C2 (counterexample). Room 1 of [db_dissolved] has status Dissolution
    and two members; C's call on it does not return Disbanded. *)
Lemma C2_counterexample : ~ dissolution_finality "token-c" 1 db_dissolved.
Proof.
  intros H. specialize (H (mk_room 1 5 1 2 3) eq_refl eq_refl).
  discriminate H.
Qed.

(** C2 (amended). join_room never reads the room's status.  On a room
    whose joined_user_count is negative every call with an unambiguous
    token returns Disbanded and writes nothing; a call returns Disbanded
    only on such a room, and then writes nothing; and a room with a count
    of 0 to 3 admits the caller, whatever its status. *)
Theorem C2_disbanded_by_count (token : string) (room_id : Z) (db : database)
  (r : room_row) :
  room_is room_id db r ->
  (unambiguous token db -> r_joined_user_count r < 0 ->
   join_room token room_id db = (Return Disbanded, db)) /\
  (forall db', join_room token room_id db = (Return Disbanded, db') ->
               r_joined_user_count r < 0 /\ db' = db) /\
  (forall u, resolves token db u -> 0 <= r_joined_user_count r < 4 ->
             exists db', join_room token room_id db = (Return Ok, db') /\
                         member_count room_id db'
                         = member_count room_id db + 1).
Proof.
  intros Hr. split; [|split].
  - intros Hu Hc. rewrite (join_room_closed _ _ _ _ Hu Hr) by lia.
    now rewrite (proj2 (judge_Disbanded _) Hc).
  - intros db'. rewrite join_room_run. unfold join_room_result.
    unfold room_is in Hr. rewrite Hr. cbn [one]. intros H.
    destruct (select_user_by_token token db) as [|u [|v l]];
      try discriminate H;
      (destruct ((0 <=? r_joined_user_count r) && (r_joined_user_count r <? 4));
       try discriminate H);
      injection H as Hj <-; apply judge_Disbanded in Hj; now split.
  - intros u Hu Hc. eexists.
    split; [exact (join_room_admits _ _ _ u r Hu Hr Hc)|].
    unfold member_count. rewrite admit_members, Z.eqb_refl, length_app.
    cbn [List.length]. lia.
Qed.

Lemma C2_disbanded_by_count_witness :
  join_room "token-c" 1 (mk_db players [mk_room 1 5 1 (-1) 1] [] 2)
  = (Return Disbanded, mk_db players [mk_room 1 5 1 (-1) 1] [] 2) /\
  exists db', join_room "token-c" 1 db_dissolved = (Return Ok, db') /\
              member_count 1 db' = member_count 1 db_dissolved + 1.
Proof.
  split.
  - apply (proj1 (C2_disbanded_by_count "token-c" 1
                    (mk_db players [mk_room 1 5 1 (-1) 1] [] 2)
                    (mk_room 1 5 1 (-1) 1) eq_refl)).
    + unfold unambiguous. cbn. lia.
    + cbn. lia.
  - apply (proj2 (proj2 (C2_disbanded_by_count "token-c" 1 db_dissolved
                           (mk_room 1 5 1 2 3) eq_refl))
                 (mk_SafeUser 3 "C" 12)).
    + reflexivity.
    + cbn. lia.
Defined.

(** C4 (counterexample). B is a member of room 1 of [db_joined]; B's
    second call does not return AlreadyJoined. *)
Lemma C4_counterexample : ~ no_double_admission "token-b" 1 db_joined.
Proof.
  intros H.
  destruct (H (mk_SafeUser 2 "B" 11) eq_refl) as (j & db' & Hrun & Hj & _).
  - discriminate.
  - destruct j; discriminate Hj.
Qed.

Lemma player_rows_admit x room_id difficulty in_order db :
  player_rows x room_id
    (update_room_upcount room_id
       (insert_member room_id x difficulty in_order db))
  = player_rows x room_id db ++ [mk_member room_id x difficulty in_order].
Proof.
  unfold player_rows. cbn [room_member update_room_upcount insert_member].
  rewrite filter_app. cbn. now rewrite !Z.eqb_refl.
Qed.

(** C4 (amended). A call by a player who is already a member of the room
    is decided like any other call: no call returns AlreadyJoined, which
    JoinRoomResult does not have; when the room's joined_user_count is 0
    to 3 the call returns Ok and writes one more member row for the
    player; otherwise it returns what the count decides and writes
    nothing. *)
Theorem C4_second_join_not_deduplicated (token : string) (room_id : Z)
  (db : database) (u : SafeUser) (r : room_row) :
  resolves token db u -> holds_membership (id u) room_id db ->
  room_is room_id db r ->
  (forall j db', join_room token room_id db = (Return j, db') ->
                 admission_outcome j <> Spec.AlreadyJoined) /\
  (0 <= r_joined_user_count r < 4 ->
   exists db',
     join_room token room_id db = (Return Ok, db') /\
     List.length (player_rows (id u) room_id db')
     = S (List.length (player_rows (id u) room_id db)) /\
     member_count room_id db' = member_count room_id db + 1) /\
  (~ 0 <= r_joined_user_count r < 4 ->
   join_room token room_id db = (Return (judge (r_joined_user_count r)), db)).
Proof.
  intros Hu _ Hr. split; [|split].
  - intros j db' _. destruct j; discriminate.
  - intros Hc. eexists.
    split; [exact (join_room_admits _ _ _ u r Hu Hr Hc)|]. split.
    + rewrite player_rows_admit, length_app. cbn [List.length]. lia.
    + unfold member_count. rewrite admit_members, Z.eqb_refl, length_app.
      cbn [List.length]. lia.
  - intros Hc. apply join_room_closed; try assumption.
    unfold unambiguous. unfold resolves in Hu. rewrite Hu. cbn. lia.
Qed.

Lemma C4_second_join_not_deduplicated_witness :
  exists db',
    join_room "token-b" 1 db_joined = (Return Ok, db') /\
    List.length (player_rows 2 1 db') = S (List.length (player_rows 2 1 db_joined)) /\
    member_count 1 db' = member_count 1 db_joined + 1.
Proof.
  apply (proj1 (proj2 (C4_second_join_not_deduplicated "token-b" 1 db_joined
                         (mk_SafeUser 2 "B" 11) (mk_room 1 5 1 2 1)
                         eq_refl ltac:(discriminate) eq_refl))).
  cbn. lia.
Defined.

(** C6 (counterexample). Room 1 of [db_dissolved] has status Dissolution
    and two members; search_room returns its id. *)
Lemma C6_counterexample : ~ search_waiting_rooms 5 db_dissolved.
Proof.
  intros (ids & Hrun & Hids). injection Hrun as <-.
  destruct (proj1 (Hids 1)) as (r & Hin & _ & _ & Hst & _).
  - now left.
  - finite_rows Hin. discriminate Hst.
Qed.

(** C6 (amended). search_room returns a list and writes nothing; an id is
    in the list exactly when a room with that id has the live_id asked
    for and a joined_user_count of 1, 2 or 3, whatever its status.  A
    room with four members does not put its id in the list. *)
Theorem C6_search_room (live_id : Z) (db : database) :
  exists ids,
    search_room live_id db = (Return (Some ids), db) /\
    forall room_id,
      In room_id ids <->
      exists r, In r (room db) /\ r_id r = room_id /\ r_live_id r = live_id /\
                0 < r_joined_user_count r < capacity.
Proof.
  eexists. split; [apply search_room_run|].
  intros room_id. unfold select_room_by_live_id, capacity.
  rewrite in_map_iff. split.
  - intros (r & Hid & Hin). apply filter_In in Hin. destruct Hin as [Hin Hc].
    apply andb_true_iff in Hc. destruct Hc as [Hl Hc].
    apply andb_true_iff in Hc. destruct Hc as [H1 H3].
    apply Z.eqb_eq in Hl. apply Z.leb_le in H1, H3.
    exists r. repeat split; try assumption; lia.
  - intros (r & Hin & Hid & Hl & Hc). exists r. split; [assumption|].
    apply filter_In. split; [assumption|].
    rewrite !andb_true_iff, Z.eqb_eq, !Z.leb_le. lia.
Qed.

(** C10 (counterexample). B joins room 1 of [db_created] having selected
    hard; the member row written carries 1 (normal). *)
Lemma C10_counterexample :
  ~ join_stores_selected hard "token-b" 1 db_created.
Proof.
  intros H. destruct (H db_joined eq_refl) as (m & Hm & Hd).
  cbn in Hm. injection Hm as <-. discriminate Hd.
Qed.

(** C10 (amended). The member row create_room writes for the creator
    carries the difficulty passed to create_room; join_room takes no
    difficulty, and the member row a successful join_room writes carries
    1 (normal). *)
Theorem C10_difficulty_recorded (db : database) :
  (forall token live_id difficulty room_id db',
      create_room token live_id difficulty db = (Return room_id, db') ->
      exists m, room_member db' = room_member db ++ [m] /\
                m_room_id m = room_id /\
                m_difficulty m = int_LiveDifficulty difficulty) /\
  (forall token room_id db',
      join_room token room_id db = (Return Ok, db') ->
      exists m, room_member db' = room_member db ++ [m] /\
                m_room_id m = room_id /\
                m_difficulty m = int_LiveDifficulty normal).
Proof.
  split.
  - intros tok l d rid db' Hrun.
    apply create_room_Return in Hrun. destruct Hrun as (u & _ & -> & ->).
    eexists. cbn. repeat split.
  - intros tok rid db' Hrun.
    apply join_room_Ok in Hrun. destruct Hrun as (u & r & _ & _ & _ & ->).
    eexists. cbn. repeat split.
Qed.

Lemma C10_difficulty_recorded_witness :
  (exists m, room_member db_created = room_member db_start ++ [m] /\
             m_room_id m = 1 /\ m_difficulty m = int_LiveDifficulty hard) /\
  (exists m, room_member db_joined = room_member db_created ++ [m] /\
             m_room_id m = 1 /\ m_difficulty m = int_LiveDifficulty normal).
Proof.
  split.
  - apply (proj1 (C10_difficulty_recorded db_start) "token-a" 5 hard 1).
    reflexivity.
  - apply (proj2 (C10_difficulty_recorded db_created) "token-b" 1).
    reflexivity.
Defined.

(** ** Claims the functions miss by a slip *)

(** C5. room_wait never returns: get_room_status passes [{"id": room_id}]
    to a statement whose bind parameter is [:room_id], so the first
    statement raises, on every database and for every room id, whether
    or not the room exists; nothing is written. *)
Theorem C5_room_wait_raises (room_id : Z) (db : database) :
  get_room_status room_id db = (Raise StatementError, db) /\
  get_room_host room_id db = (Raise StatementError, db) /\
  room_wait room_id db = (Raise StatementError, db) /\
  forall v db', room_wait room_id db <> (Return v, db').
Proof.
  assert (bindparam [("id", room_id)] "room_id" = Raise StatementError)
    as Hbind by reflexivity.
  assert (get_room_status room_id db = (Raise StatementError, db)) as Hst.
  { unfold get_room_status, engine_begin, bind, lift. now rewrite Hbind. }
  split; [|split; [|split]].
  - exact Hst.
  - unfold get_room_host, engine_begin, bind, lift. now rewrite Hbind.
  - unfold room_wait, bind. now rewrite Hst.
  - intros v db'. unfold room_wait, bind. rewrite Hst. discriminate.
Qed.

(** The member rows of room 1 of [db_full] are in join order and the
    room exists, yet room_wait raises. *)
Example room_wait_full_room :
  room_wait 1 db_full = (Raise StatementError, db_full).
Proof. reflexivity. Qed.

(** The parts of C8 that hold: a missing room raises [NoResultFound], and
    with a resolving token and an existing room the call returns one of
    the four members of [JoinRoomResult]. *)
Lemma join_room_no_room token room_id db :
  unambiguous token db -> select_room_by_id room_id db = [] ->
  join_room token room_id db = (Raise NoResultFound, db).
Proof.
  unfold unambiguous. intros Hu Hr.
  rewrite join_room_run. unfold join_room_result. rewrite Hr. cbn [one].
  destruct (select_user_by_token token db) as [|u [|v l]];
    try reflexivity. cbn in Hu. lia.
Qed.

Lemma join_room_returns token room_id db u r :
  resolves token db u -> room_is room_id db r ->
  exists j db', join_room token room_id db = (Return j, db').
Proof.
  unfold resolves, room_is. intros Hu Hr.
  rewrite join_room_run. unfold join_room_result. rewrite Hu, Hr. cbn [one].
  destruct ((0 <=? r_joined_user_count r) && (r_joined_user_count r <? 4));
    eauto.
Qed.

(** C8. With a token that resolves to no player join_room never raises
    InvalidToken: on a room whose joined_user_count is 0 to 3 it raises
    AttributeError at [user.id], and on any other room it returns what the
    count decides (RoomFull for a full room), as if the caller were
    known.  Nothing is written. *)
Theorem C8_join_room_unresolved_token (token : string) (room_id : Z)
  (db : database) (r : room_row) :
  unresolved token db -> room_is room_id db r ->
  join_room token room_id db =
  (if (0 <=? r_joined_user_count r) && (r_joined_user_count r <? 4)
   then Raise AttributeError
   else Return (judge (r_joined_user_count r)), db) /\
  join_room token room_id db <> (Raise InvalidToken, db).
Proof.
  unfold unresolved, room_is. intros Hu Hr.
  rewrite join_room_run. unfold join_room_result. rewrite Hu, Hr. cbn [one].
  destruct ((0 <=? r_joined_user_count r) && (r_joined_user_count r <? 4));
    split; try reflexivity; discriminate.
Qed.

Lemma C8_join_room_unresolved_token_witness :
  join_room "no-such-token" 1 db_full = (Return RoomFull, db_full) /\
  join_room "no-such-token" 1 db_full <> (Raise InvalidToken, db_full).
Proof.
  apply (C8_join_room_unresolved_token "no-such-token" 1 db_full
           (mk_room 1 5 1 4 1)).
  - reflexivity.
  - reflexivity.
Defined.

(** create_room, the sibling of join_room, does check the token. *)
Example create_room_checks_token :
  create_room "no-such-token" 5 normal db_full = (Raise InvalidToken, db_full).
Proof. reflexivity. Qed.

(** C9. update_room_status ignores its room id: the statement has no
    WHERE clause, so every room row gets the status, and the counts stay.
    On [db_two_rooms] the call for room 1 sets room 2 to Dissolution too.
    downcount_joined_count raises before it writes. *)
Theorem C9_update_room_status_unscoped :
  (forall room_id status db,
      map r_status (room (snd (update_room_status room_id status db)))
      = map (fun _ => int_WaitRoomStatus status) (room db) /\
      map r_joined_user_count
          (room (snd (update_room_status room_id status db)))
      = map r_joined_user_count (room db)) /\
  room (snd (update_room_status 1 Dissolution db_two_rooms))
  = [mk_room 1 5 1 2 3; mk_room 2 5 3 1 3] /\
  (forall room_id db,
      downcount_joined_count room_id db = (Raise StatementError, db)).
Proof.
  split; [|split].
  - intros room_id status db. rewrite update_room_status_run.
    cbn [snd update_room_set_status room]. rewrite !map_map. cbn. now split.
  - reflexivity.
  - intros room_id db. reflexivity.
Qed.

(** ** Two calls interleaved

    The statements of [join_room] run in transactions of their own: the
    reads of [get_upto_member_room] and [get_room_user_count] are
    committed before [insert_room_member] begins.  The call is therefore
    a decision on what was read followed by a write, and another call
    may run between the two. *)

Lemma join_room_phases token room_id db :
  join_room token room_id db =
  engine_begin (decided <- join_room_decide token room_id ;;
                join_room_write room_id decided) db.
Proof.
  unfold join_room, join_room_decide, engine_begin, bind.
  destruct (select_user_by_token token db) as [|u [|v l]] eqn:E;
    [rewrite (get_user_unresolved _ _ E)
    |rewrite (get_user_resolved _ _ _ E)
    |rewrite (get_user_ambiguous _ _ _ _ _ E); reflexivity];
    rewrite get_upto_member_room_run;
    (destruct (one (select_room_by_id room_id db)) as [r|e] eqn:Hr;
     [|reflexivity]);
    (destruct (JoinRoomResult_eqb (judge (r_joined_user_count r)) Ok) eqn:Hj;
     [|reflexivity]);
    apply JoinRoomResult_eqb_Ok in Hj; rewrite ?Hj;
    rewrite get_room_user_count_run, Hr; reflexivity.
Qed.

(** D and E both read room 1 with three members, then both write: the
    room ends with a count of five and two member rows of in_order 4. *)
Example interleaved_joins_exceed_capacity :
  let (d, db1) := join_room_decide "token-d" 1 db_three in
  let (e, db2) := join_room_decide "token-e" 1 db1 in
  match d, e with
  | Return d, Return e =>
      let (rd, db3) := join_room_write 1 d db2 in
      let (re, db4) := join_room_write 1 e db3 in
      rd = Return Ok /\ re = Return Ok /\
      map r_joined_user_count (room db4) = [5] /\
      join_orders 1 db4 = [1; 2; 3; 4; 4]
  | _, _ => False
  end.
Proof. cbn. repeat split. Qed.

(** ** The user functions *)

Lemma update_user_run token name leader_card_id db :
  update_user token name leader_card_id db =
  (Return tt, update_user_rows token name leader_card_id db).
Proof. reflexivity. Qed.

Lemma create_user_run uuid4 lastrowid name leader_card_id db :
  create_user uuid4 lastrowid name leader_card_id db =
  (Return uuid4, insert_user lastrowid name uuid4 leader_card_id db).
Proof. reflexivity. Qed.

Lemma get_user_by_token_run token db :
  get_user_by_token token db =
  (match select_user_by_token token db with
   | [] => Return None
   | [u] => Return (Some u)
   | _ :: _ :: _ => Raise MultipleResultsFound
   end, db).
Proof.
  unfold get_user_by_token, engine_begin.
  destruct (select_user_by_token token db) as [|u [|v l]] eqn:E.
  - now rewrite (get_user_unresolved _ _ E).
  - now rewrite (get_user_resolved _ _ _ E).
  - now rewrite (get_user_ambiguous _ _ _ _ _ E).
Qed.

Lemma select_user_update_same token name leader_card_id db :
  select_user_by_token token (update_user_rows token name leader_card_id db)
  = map (fun u => mk_SafeUser (id u) name leader_card_id)
        (select_user_by_token token db).
Proof.
  unfold select_user_by_token, update_user_rows. cbn [user].
  induction (user db) as [|x l IH]; [reflexivity|].
  cbn [map filter].
  destruct (String.eqb (u_token x) token) eqn:E; cbn [u_token]; rewrite E;
    cbn [map]; now rewrite IH.
Qed.

Lemma select_user_update_other token token' name leader_card_id db :
  token' <> token ->
  select_user_by_token token' (update_user_rows token name leader_card_id db)
  = select_user_by_token token' db.
Proof.
  intros Hne. unfold select_user_by_token, update_user_rows. cbn [user].
  induction (user db) as [|x l IH]; [reflexivity|].
  cbn [map filter].
  destruct (String.eqb_spec (u_token x) token) as [e|n]; cbn [u_token].
  - destruct (String.eqb_spec (u_token x) token') as [e'|_];
      [congruence | exact IH].
  - destruct (String.eqb (u_token x) token'); cbn [map]; now rewrite IH.
Qed.

Lemma update_user_rows_none token name leader_card_id db :
  unresolved token db -> update_user_rows token name leader_card_id db = db.
Proof.
  unfold unresolved, select_user_by_token, update_user_rows.
  destruct db as [us rs ms n]. cbn [user room room_member room_auto_increment].
  intros H. f_equal.
  induction us as [|x l IH]; [reflexivity|].
  cbn [map filter] in *.
  destruct (String.eqb (u_token x) token); [discriminate H|].
  now rewrite IH.
Qed.

Lemma select_user_insert token' lastrowid name token leader_card_id db :
  select_user_by_token token' (insert_user lastrowid name token leader_card_id db)
  = select_user_by_token token' db ++
    (if String.eqb token token'
     then [mk_SafeUser lastrowid name leader_card_id] else []).
Proof.
  unfold select_user_by_token, insert_user. cbn [user].
  rewrite filter_app, map_app. cbn.
  destruct (String.eqb token token'); reflexivity.
Qed.

(** X1. get_user_by_token writes nothing; it returns the user when
    exactly one row carries the token, None when no row does, and raises
    MultipleResultsFound, and nothing else, when two or more do. *)
Theorem X1_get_user_by_token (token : string) (db : database) :
  snd (get_user_by_token token db) = db /\
  (forall u, fst (get_user_by_token token db) = Return (Some u) <->
             select_user_by_token token db = [u]) /\
  (fst (get_user_by_token token db) = Return None <->
   select_user_by_token token db = []) /\
  (forall e, fst (get_user_by_token token db) = Raise e <->
             e = MultipleResultsFound /\
             (2 <= List.length (select_user_by_token token db))%nat).
Proof.
  rewrite get_user_by_token_run. cbn [fst snd].
  destruct (select_user_by_token token db) as [|u [|v l]];
    (split; [reflexivity|]); (split; [|split]).
  all: try (intros u'; split; intros H; congruence).
  all: try (split; intros H; congruence).
  all: intros e; split; cbn [List.length].
  all: try (intros H; discriminate H).
  all: try (intros [_ H]; lia).
  - intros [= <-]. split; [reflexivity | lia].
  - intros [-> _]. reflexivity.
Qed.

(** X2. update_user with a token no row carries raises nothing and
    changes nothing. *)
Theorem X2_update_user_unknown_token (token name : string)
  (leader_card_id : Z) (db : database) :
  unresolved token db ->
  update_user token name leader_card_id db = (Return tt, db).
Proof.
  intros H. rewrite update_user_run. now rewrite update_user_rows_none.
Qed.

Lemma X2_update_user_unknown_token_witness :
  update_user "no-such-token" "Z" 99 db_joined = (Return tt, db_joined).
Proof.
  apply (X2_update_user_unknown_token "no-such-token" "Z" 99 db_joined).
  reflexivity.
Defined.

(** X3. update_user never raises; it leaves the room tables and the
    store's counter as they were, keeps the id and the token of every
    user row, and does not change what any other token looks up. *)
Theorem X3_update_user_frame (token name : string) (leader_card_id : Z)
  (db : database) :
  exists db',
    update_user token name leader_card_id db = (Return tt, db') /\
    room db' = room db /\ room_member db' = room_member db /\
    room_auto_increment db' = room_auto_increment db /\
    map u_id (user db') = map u_id (user db) /\
    map u_token (user db') = map u_token (user db) /\
    forall token', token' <> token ->
                   get_user_by_token token' db'
                   = (fst (get_user_by_token token' db), db').
Proof.
  eexists. split; [apply update_user_run|].
  repeat (split; [reflexivity|]).
  assert (forall f : user_row -> Z + string,
             (forall u n l, f (mk_user (u_id u) n (u_token u) l) = f u) ->
             map f (user (update_user_rows token name leader_card_id db))
             = map f (user db)) as Hmap.
  { intros f Hf. unfold update_user_rows. cbn [user]. rewrite map_map.
    apply map_ext. intros u. destruct (String.eqb (u_token u) token);
      [apply Hf | reflexivity]. }
  split; [|split].
  - specialize (Hmap (fun u => inl (u_id u)) (fun _ _ _ => eq_refl)).
    rewrite <- (map_map u_id inl), <- (map_map u_id inl (user db)) in Hmap.
    revert Hmap. generalize (map u_id (user db)).
    induction (map u_id (user (update_user_rows token name leader_card_id db)))
      as [|a l IH]; intros [|b l'] H; try discriminate H; [reflexivity|].
    cbn in H. injection H as -> H. f_equal. now apply IH.
  - specialize (Hmap (fun u => inr (u_token u)) (fun _ _ _ => eq_refl)).
    rewrite <- (map_map u_token inr), <- (map_map u_token inr (user db)) in Hmap.
    revert Hmap. generalize (map u_token (user db)).
    induction (map u_token (user (update_user_rows token name leader_card_id db)))
      as [|a l IH]; intros [|b l'] H; try discriminate H; [reflexivity|].
    cbn in H. injection H as -> H. f_equal. now apply IH.
  - intros token' Hne. rewrite !get_user_by_token_run. cbn [fst].
    now rewrite select_user_update_other.
Qed.

(** X4. After update_user on a token that resolves, get_user_by_token on
    that token returns the same id with the new name and leader card. *)
Theorem X4_update_then_get (token name : string) (leader_card_id : Z)
  (db : database) (u : SafeUser) :
  resolves token db u ->
  exists db',
    update_user token name leader_card_id db = (Return tt, db') /\
    get_user_by_token token db'
    = (Return (Some (mk_SafeUser (id u) name leader_card_id)), db').
Proof.
  unfold resolves. intros Hu. eexists. split; [apply update_user_run|].
  rewrite get_user_by_token_run, select_user_update_same, Hu. reflexivity.
Qed.

Lemma X4_update_then_get_witness :
  exists db',
    update_user "token-b" "Bee" 77 db_joined = (Return tt, db') /\
    get_user_by_token "token-b" db' = (Return (Some (mk_SafeUser 2 "Bee" 77)), db').
Proof.
  apply (X4_update_then_get "token-b" "Bee" 77 db_joined (mk_SafeUser 2 "B" 11)).
  reflexivity.
Defined.

(** X5. When the token drawn is carried by no row, create_user returns
    it, get_user_by_token on it then returns the new user with the id the
    store generated, every other token looks up what it did before, and
    the room tables are as they were. *)
Theorem X5_create_then_get (uuid4 : string) (lastrowid : Z) (name : string)
  (leader_card_id : Z) (db : database) :
  unresolved uuid4 db ->
  exists db',
    create_user uuid4 lastrowid name leader_card_id db = (Return uuid4, db') /\
    get_user_by_token uuid4 db'
    = (Return (Some (mk_SafeUser lastrowid name leader_card_id)), db') /\
    (forall token', token' <> uuid4 ->
                    get_user_by_token token' db'
                    = (fst (get_user_by_token token' db), db')) /\
    room db' = room db /\ room_member db' = room_member db /\
    room_auto_increment db' = room_auto_increment db.
Proof.
  unfold unresolved. intros Hu. eexists. split; [apply create_user_run|].
  split; [|split; [|repeat split]].
  - rewrite get_user_by_token_run, select_user_insert, Hu, String.eqb_refl.
    reflexivity.
  - intros token' Hne. rewrite !get_user_by_token_run, select_user_insert.
    destruct (String.eqb_spec uuid4 token') as [e|_]; [congruence|].
    now rewrite app_nil_r.
Qed.

Lemma X5_create_then_get_witness :
  exists db',
    create_user "token-f" 6 "F" 15 db_joined = (Return "token-f", db') /\
    get_user_by_token "token-f" db' = (Return (Some (mk_SafeUser 6 "F" 15)), db') /\
    (forall token', token' <> "token-f" ->
                    get_user_by_token token' db'
                    = (fst (get_user_by_token token' db_joined), db')) /\
    room db' = room db_joined /\ room_member db' = room_member db_joined /\
    room_auto_increment db' = room_auto_increment db_joined.
Proof.
  apply (X5_create_then_get "token-f" 6 "F" 15 db_joined). reflexivity.
Defined.

(** ** Member listing *)

Lemma get_room_user_info_run room_id db :
  get_room_user_info room_id db =
  (get_room_user_info_loop (select_member_by_room room_id db), db).
Proof.
  unfold get_room_user_info, engine_begin, bind, lift, query. cbn.
  destruct (get_room_user_info_loop (select_member_by_room room_id db));
    reflexivity.
Qed.

Lemma LiveDifficulty_call_valid z :
  z = 1 \/ z = 2 ->
  exists d, LiveDifficulty_call z = Return d /\ int_LiveDifficulty d = z.
Proof.
  intros [-> | ->]; [exists normal | exists hard]; now split.
Qed.

Lemma LiveDifficulty_call_invalid z :
  z <> 1 -> z <> 2 -> LiveDifficulty_call z = Raise ValueError.
Proof.
  intros H1 H2. unfold LiveDifficulty_call.
  destruct (Z.eqb_spec z 1); [contradiction|].
  destruct (Z.eqb_spec z 2); [contradiction|]. reflexivity.
Qed.

Lemma loop_valid rows :
  (forall m, In m rows -> m_difficulty m = 1 \/ m_difficulty m = 2) ->
  exists infos, get_room_user_info_loop rows = Return infos /\
                map info_row infos = rows.
Proof.
  induction rows as [|m rows IH]; intros H.
  - exists []. now split.
  - destruct (LiveDifficulty_call_valid (m_difficulty m)) as (d & Hd & Hint).
    { apply H. now left. }
    destruct IH as (infos & Hloop & Hmap).
    { intros m' Hm'. apply H. now right. }
    eexists. cbn [get_room_user_info_loop]. rewrite Hd, Hloop.
    split; [reflexivity|]. cbn [map]. rewrite Hmap. unfold info_row. cbn.
    rewrite Hint. now destruct m.
Qed.

Lemma loop_invalid rows m :
  In m rows -> m_difficulty m <> 1 -> m_difficulty m <> 2 ->
  get_room_user_info_loop rows = Raise ValueError.
Proof.
  intros Hin H1 H2. induction rows as [|x rows IH]; [destruct Hin|].
  cbn [get_room_user_info_loop].
  destruct Hin as [->|Hin].
  - now rewrite LiveDifficulty_call_invalid.
  - unfold LiveDifficulty_call.
    destruct (m_difficulty x =? 1); [|destruct (m_difficulty x =? 2)];
      try reflexivity; now rewrite (IH Hin).
Qed.

(** X6. The constructor call LiveDifficulty(value) undoes int(): it
    returns the member whose integer the value is, and raises ValueError
    on every integer other than 1 and 2. *)
Theorem X6_LiveDifficulty_round_trip :
  (forall d, LiveDifficulty_call (int_LiveDifficulty d) = Return d) /\
  (forall z d, LiveDifficulty_call z = Return d <-> z = int_LiveDifficulty d) /\
  (forall z, LiveDifficulty_call z = Raise ValueError <-> z <> 1 /\ z <> 2).
Proof.
  assert (forall d, LiveDifficulty_call (int_LiveDifficulty d) = Return d)
    as Hrt by (intros []; reflexivity).
  split; [exact Hrt|]. split.
  - intros z d. split; [|intros ->; apply Hrt].
    unfold LiveDifficulty_call.
    destruct (Z.eqb_spec z 1) as [->|_]; [now intros [= <-]|].
    destruct (Z.eqb_spec z 2) as [->|_]; [now intros [= <-]|]. discriminate.
  - intros z. split.
    + unfold LiveDifficulty_call.
      destruct (Z.eqb_spec z 1); [discriminate|].
      destruct (Z.eqb_spec z 2); [discriminate|]. now split.
    + intros [H1 H2]. now apply LiveDifficulty_call_invalid.
Qed.

(** X7. When every member row of the room carries difficulty 1 or 2,
    get_room_user_info writes nothing and returns one entry per member
    row of the room, in the rows' order and with the rows' room id, user
    id, difficulty and in_order; for a room id without member rows, a
    room that does not exist included, that is the empty list and not an
    error. *)
Theorem X7_get_room_user_info (room_id : Z) (db : database) :
  (forall m, In m (select_member_by_room room_id db) ->
             m_difficulty m = 1 \/ m_difficulty m = 2) ->
  (exists infos,
      get_room_user_info room_id db = (Return infos, db) /\
      map info_row infos = select_member_by_room room_id db /\
      Z.of_nat (List.length infos) = member_count room_id db) /\
  (select_member_by_room room_id db = [] ->
   get_room_user_info room_id db = (Return [], db)).
Proof.
  intros H. rewrite get_room_user_info_run. split.
  - destruct (loop_valid _ H) as (infos & Hloop & Hmap).
    exists infos. rewrite Hloop. repeat split; [exact Hmap|].
    unfold member_count. now rewrite <- Hmap, length_map.
  - intros ->. reflexivity.
Qed.

Lemma X7_get_room_user_info_witness :
  (exists infos,
      get_room_user_info 1 db_full = (Return infos, db_full) /\
      map info_row infos = select_member_by_room 1 db_full /\
      Z.of_nat (List.length infos) = member_count 1 db_full) /\
  (select_member_by_room 9 db_full = [] ->
   get_room_user_info 9 db_full = (Return [], db_full)).
Proof.
  split.
  - apply (X7_get_room_user_info 1 db_full).
    intros m H. finite_rows H; cbn; lia.
  - apply (X7_get_room_user_info 9 db_full). intros m H. finite_rows H.
Defined.

(** X8. When some member row of the room carries a difficulty other than
    1 and 2, get_room_user_info raises ValueError and writes nothing. *)
Theorem X8_get_room_user_info_bad_difficulty (room_id : Z) (db : database)
  (m : room_member_row) :
  In m (room_member db) -> m_room_id m = room_id ->
  m_difficulty m <> 1 -> m_difficulty m <> 2 ->
  get_room_user_info room_id db = (Raise ValueError, db).
Proof.
  intros Hin Hid H1 H2. rewrite get_room_user_info_run.
  rewrite (loop_invalid _ m); try assumption; [reflexivity|].
  apply filter_In. split; [assumption | now apply Z.eqb_eq].
Qed.

Lemma X8_get_room_user_info_bad_difficulty_witness :
  get_room_user_info 1 db_bad_difficulty = (Raise ValueError, db_bad_difficulty).
Proof.
  apply (X8_get_room_user_info_bad_difficulty 1 db_bad_difficulty
           (mk_member 1 1 7 1)).
  - now left.
  - reflexivity.
  - cbn. lia.
  - cbn. lia.
Defined.

(** X9. Every operation keeps the difficulty of every member row in
    {1, 2}: create_room writes the integer of the difficulty passed,
    join_room writes 1, and no operation alters a member row. *)
Theorem X9_difficulties_valid_preserved (op : operation) (db : database) :
  difficulties_valid db -> difficulties_valid (exec op db).
Proof.
  intros Hv. destruct op as [tok l d|l|tok rid|rid|rid st|rid]; cbn [exec].
  - destruct (create_room_effect tok l d db) as [->|(u & _ & ->)];
      [exact Hv|]. cbn [snd]. intros m Hin. cbn in Hin.
    apply in_app_iff in Hin. destruct Hin as [Hin|[<-|[]]]; [now apply Hv|].
    cbn. destruct d; cbn; lia.
  - rewrite search_room_run. exact Hv.
  - destruct (join_room_effect tok rid db) as [->|(u & r & _ & _ & _ & ->)];
      [exact Hv|]. cbn [snd]. intros m Hin. cbn in Hin.
    apply in_app_iff in Hin. destruct Hin as [Hin|[<-|[]]]; [now apply Hv|].
    cbn. lia.
  - rewrite room_wait_run. exact Hv.
  - rewrite update_room_status_run. exact Hv.
  - rewrite downcount_joined_count_run. exact Hv.
Qed.

Lemma X9_difficulties_valid_preserved_witness :
  difficulties_valid (exec (OpCreateRoom "token-c" 7 hard) db_joined).
Proof.
  apply (X9_difficulties_valid_preserved (OpCreateRoom "token-c" 7 hard)
           db_joined).
  intros m H. finite_rows H; cbn; lia.
Defined.

(** ** Joining, searching and creating together *)

Lemma judge_OtherError c : judge c = OtherError <-> 4 < c.
Proof.
  unfold judge.
  destruct (Z.gtb_spec c 4); [split; [lia | reflexivity]|].
  destruct (Z.eqb_spec c 4); [split; [discriminate | lia]|].
  destruct (Z.geb_spec c 0); [split; [discriminate | lia]|].
  destruct (Z.ltb_spec c 0); split; try discriminate; lia.
Qed.

Lemma select_room_upcount room_id db :
  select_room_by_id room_id (update_room_upcount room_id db)
  = map (fun r => mk_room (r_id r) (r_live_id r) (r_room_master r)
                          (r_joined_user_count r + 1) (r_status r))
        (select_room_by_id room_id db).
Proof.
  unfold select_room_by_id, update_room_upcount. cbn [room].
  induction (room db) as [|x l IH]; [reflexivity|].
  cbn [map filter].
  destruct (r_id x =? room_id) eqn:E; cbn [r_id]; rewrite E; cbn [map];
    now rewrite IH.
Qed.

Lemma select_room_none x db :
  (forall r, In r (room db) -> r_id r < x) -> select_room_by_id x db = [].
Proof.
  unfold select_room_by_id. intros H.
  induction (room db) as [|r l IH]; [reflexivity|].
  cbn. destruct (Z.eqb_spec (r_id r) x) as [e|_].
  - specialize (H r (or_introl eq_refl)). lia.
  - apply IH. intros r' Hr'. apply H. now right.
Qed.

Lemma room_is_after_admit room_id user_id difficulty in_order db r :
  room_is room_id db r ->
  room_is room_id
    (update_room_upcount room_id
       (insert_member room_id user_id difficulty in_order db))
    (mk_room (r_id r) (r_live_id r) (r_room_master r)
             (r_joined_user_count r + 1) (r_status r)).
Proof.
  unfold room_is. intros Hr. rewrite select_room_upcount.
  rewrite select_room_by_id_insert_member, Hr. reflexivity.
Qed.

(** X10. With a token that resolves and a room id exactly one row
    carries, join_room returns a value, the one the room's count decides;
    it writes only when that value is Ok; and it returns OtherError
    exactly when the count is above 4, so the test of insert_room_member's
    result for None never makes it so. *)
Theorem X10_join_room_verdict (token : string) (room_id : Z) (db : database)
  (u : SafeUser) (r : room_row) :
  resolves token db u -> room_is room_id db r ->
  fst (join_room token room_id db) = Return (judge (r_joined_user_count r)) /\
  (judge (r_joined_user_count r) <> Ok -> snd (join_room token room_id db) = db) /\
  (fst (join_room token room_id db) = Return OtherError <->
   4 < r_joined_user_count r).
Proof.
  intros Hu Hr.
  assert (fst (join_room token room_id db)
          = Return (judge (r_joined_user_count r))) as Hfst.
  { destruct (Z_le_dec 0 (r_joined_user_count r)) as [H0|H0];
      [destruct (Z_lt_dec (r_joined_user_count r) 4) as [H4|H4]|].
    - rewrite (join_room_admits _ _ _ u r Hu Hr) by lia. cbn [fst].
      now rewrite (proj2 (judge_Ok _)) by lia.
    - rewrite (join_room_closed _ _ _ r); [reflexivity| |assumption|lia].
      unfold unambiguous. unfold resolves in Hu. rewrite Hu. cbn. lia.
    - rewrite (join_room_closed _ _ _ r); [reflexivity| |assumption|lia].
      unfold unambiguous. unfold resolves in Hu. rewrite Hu. cbn. lia. }
  split; [exact Hfst|]. split.
  - intros Hj. rewrite (join_room_closed _ _ _ r); [reflexivity| |assumption|].
    + unfold unambiguous. unfold resolves in Hu. rewrite Hu. cbn. lia.
    + intros Hc. apply Hj. now apply judge_Ok.
  - rewrite Hfst. rewrite <- judge_OtherError. split; congruence.
Qed.

Lemma X10_join_room_verdict_witness :
  fst (join_room "token-e" 1 db_full) = Return RoomFull /\
  snd (join_room "token-e" 1 db_full) = db_full.
Proof.
  destruct (X10_join_room_verdict "token-e" 1 db_full
              (mk_SafeUser 5 "E" 14) (mk_room 1 5 1 4 1) eq_refl eq_refl)
    as (Hfst & Hsnd & _).
  split; [exact Hfst|]. apply Hsnd. discriminate.
Defined.

(** X11. A join_room that returns Ok leaves the user table and the
    store's counter alone, keeps every room row in place with its id,
    live_id, room_master and status, keeps every row of another room as
    it was, and appends exactly one member row: the caller's, for that
    room. *)
Theorem X11_join_room_frame (token : string) (room_id : Z)
  (db db' : database) :
  join_room token room_id db = (Return Ok, db') ->
  user db' = user db /\
  room_auto_increment db' = room_auto_increment db /\
  map room_identity (room db') = map room_identity (room db) /\
  map r_status (room db') = map r_status (room db) /\
  (forall r0, In r0 (room db) -> r_id r0 <> room_id -> In r0 (room db')) /\
  exists u m, resolves token db u /\
              room_member db' = room_member db ++ [m] /\
              m_room_id m = room_id /\ m_user_id m = id u.
Proof.
  intros Hrun. apply join_room_Ok in Hrun.
  destruct Hrun as (u & r & Hu & Hr & Hc & ->).
  cbn [user room room_member room_auto_increment update_room_upcount
       insert_member].
  split; [reflexivity|]. split; [reflexivity|].
  split; [|split; [|split]].
  - rewrite map_map. apply map_ext. intros x.
    now destruct (r_id x =? room_id).
  - rewrite map_map. apply map_ext. intros x.
    now destruct (r_id x =? room_id).
  - intros r0 Hin Hne. apply in_map_iff. exists r0. split; [|assumption].
    destruct (Z.eqb_spec (r_id r0) room_id); [contradiction | reflexivity].
  - exists u. eexists. repeat split. exact Hu.
Qed.

Lemma X11_join_room_frame_witness :
  user db_joined = user db_created /\
  room_auto_increment db_joined = room_auto_increment db_created /\
  map room_identity (room db_joined) = map room_identity (room db_created) /\
  map r_status (room db_joined) = map r_status (room db_created) /\
  (forall r0, In r0 (room db_created) -> r_id r0 <> 1 -> In r0 (room db_joined)) /\
  exists u m, resolves "token-b" db_created u /\
              room_member db_joined = room_member db_created ++ [m] /\
              m_room_id m = 1 /\ m_user_id m = id u.
Proof.
  apply (X11_join_room_frame "token-b" 1 db_created db_joined). reflexivity.
Defined.

(** X12. No operation touches the user table, removes or alters a member
    row, or removes a room row or changes its id, live_id or room_master:
    the member rows and the room identities after an operation are those
    before it followed by at most one new one. *)
Theorem X12_tables_only_grow (op : operation) (db : database) :
  user (exec op db) = user db /\
  (exists l, room_member (exec op db) = room_member db ++ l /\
             (List.length l <= 1)%nat) /\
  (exists l, map room_identity (room (exec op db))
             = map room_identity (room db) ++ l /\
             (List.length l <= 1)%nat).
Proof.
  assert (user db = user db /\
          (exists l, room_member db = room_member db ++ l /\
                     (List.length l <= 1)%nat) /\
          (exists l, map room_identity (room db)
                     = map room_identity (room db) ++ l /\
                     (List.length l <= 1)%nat)) as Hsame.
  { split; [reflexivity|].
    split; exists []; rewrite app_nil_r; split; auto. }
  destruct op as [tok l d|l|tok rid|rid|rid st|rid]; cbn [exec].
  - destruct (create_room_effect tok l d db) as [->|(u & _ & ->)];
      [exact Hsame|]. cbn [snd]. split; [reflexivity|]. split.
    + eexists. split; [reflexivity|]. cbn. lia.
    + eexists. cbn [room insert_member insert_room]. rewrite map_app.
      split; [reflexivity|]. cbn. lia.
  - rewrite search_room_run. exact Hsame.
  - destruct (join_room_effect tok rid db) as [->|(u & r & _ & _ & _ & ->)];
      [exact Hsame|]. cbn [snd]. split; [reflexivity|]. split.
    + eexists. split; [reflexivity|]. cbn. lia.
    + exists []. rewrite app_nil_r. split; [|cbn; lia].
      cbn [room update_room_upcount insert_member]. rewrite map_map.
      apply map_ext. intros x. now destruct (r_id x =? rid).
  - rewrite room_wait_run. exact Hsame.
  - rewrite update_room_status_run. cbn [snd]. split; [reflexivity|]. split.
    + exists []. rewrite app_nil_r. split; [reflexivity | cbn; lia].
    + exists []. rewrite app_nil_r. split; [|cbn; lia].
      cbn [room update_room_set_status]. rewrite map_map. reflexivity.
  - rewrite downcount_joined_count_run. exact Hsame.
Qed.

(** X13. No operation lowers a room's joined_user_count or raises it by
    more than one, and only update_room_status changes a status: every
    room row is still there after the operation with the same id, live_id
    and room_master, a count that is the old one or the old one plus one,
    and, unless the operation is update_room_status, the old status. *)
Theorem X13_counts_never_decrease (op : operation) (db : database)
  (r : room_row) :
  In r (room db) ->
  exists r',
    In r' (room (exec op db)) /\ room_identity r' = room_identity r /\
    r_joined_user_count r <= r_joined_user_count r'
                          <= r_joined_user_count r + 1 /\
    match op with
    | OpUpdateRoomStatus _ status => r_status r' = int_WaitRoomStatus status
    | _ => r_status r' = r_status r
    end.
Proof.
  intros Hin.
  assert (forall db0 : database, db0 = db ->
            exists r', In r' (room db0) /\ room_identity r' = room_identity r /\
                       r_joined_user_count r <= r_joined_user_count r'
                                             <= r_joined_user_count r + 1 /\
                       r_status r' = r_status r) as Hsame.
  { intros db0 ->. exists r. repeat split; try assumption; lia. }
  destruct op as [tok l d|l|tok rid|rid|rid st|rid]; cbn [exec].
  - destruct (create_room_effect tok l d db) as [->|(u & _ & ->)];
      [now apply Hsame|]. cbn [snd]. exists r. repeat split; try lia.
    cbn. apply in_app_iff. now left.
  - rewrite search_room_run. now apply Hsame.
  - destruct (join_room_effect tok rid db) as [->|(u & r0 & _ & _ & _ & ->)];
      [now apply Hsame|]. cbn [snd].
    eexists. split; [cbn; apply in_map; exact Hin|].
    destruct (r_id r =? rid); cbn; repeat split; lia.
  - rewrite room_wait_run. now apply Hsame.
  - rewrite update_room_status_run. cbn [snd].
    eexists. split; [cbn; apply in_map; exact Hin|]. cbn.
    repeat split; lia.
  - rewrite downcount_joined_count_run. now apply Hsame.
Qed.

Lemma X13_counts_never_decrease_witness :
  exists r',
    In r' (room (exec (OpJoinRoom "token-c" 1) db_joined)) /\
    room_identity r' = room_identity (mk_room 1 5 1 2 1) /\
    2 <= r_joined_user_count r' <= 2 + 1 /\
    r_status r' = 1.
Proof.
  apply (X13_counts_never_decrease (OpJoinRoom "token-c" 1) db_joined
           (mk_room 1 5 1 2 1)).
  now left.
Defined.

(** X14. Every room search_room lists can be joined: when exactly one row
    carries the listed id and the caller's token resolves, join_room
    returns Ok. *)
Theorem X14_listed_rooms_admit (live_id : Z) (token : string) (room_id : Z)
  (db : database) (ids : list Z) (u : SafeUser) (r : room_row) :
  search_room live_id db = (Return (Some ids), db) -> In room_id ids ->
  resolves token db u -> room_is room_id db r ->
  exists db', join_room token room_id db = (Return Ok, db').
Proof.
  rewrite search_room_run. intros [= <-] Hin Hu Hr.
  apply in_map_iff in Hin. destruct Hin as (r0 & Hid & Hin).
  apply filter_In in Hin. destruct Hin as [Hin Hc].
  rewrite (room_is_unique _ _ _ _ Hr Hin Hid) in Hc.
  apply andb_true_iff in Hc. destruct Hc as [_ Hc].
  apply andb_true_iff in Hc. destruct Hc as [H1 H3].
  apply Z.leb_le in H1, H3.
  eexists. apply (join_room_admits _ _ _ u r Hu Hr). lia.
Qed.

Lemma X14_listed_rooms_admit_witness :
  exists db', join_room "token-c" 1 db_joined = (Return Ok, db').
Proof.
  apply (X14_listed_rooms_admit 5 "token-c" 1 db_joined [1]
           (mk_SafeUser 3 "C" 12) (mk_room 1 5 1 2 1)).
  - reflexivity.
  - now left.
  - reflexivity.
  - reflexivity.
Defined.

(** X15. A room just created is listed: after create_room returns an id,
    search_room for the same live_id returns a list that holds it. *)
Theorem X15_created_room_is_listed (token : string) (live_id : Z)
  (difficulty : LiveDifficulty) (db : database) (u : SafeUser) :
  resolves token db u ->
  exists room_id db' ids,
    create_room token live_id difficulty db = (Return room_id, db') /\
    search_room live_id db' = (Return (Some ids), db') /\
    In room_id ids.
Proof.
  unfold resolves. intros Hu. do 3 eexists.
  rewrite create_room_run. unfold create_room_result. rewrite Hu.
  split; [reflexivity|]. split; [apply search_room_run|].
  apply in_map_iff.
  exists (mk_room (room_auto_increment db) live_id (id u) 1 1).
  split; [reflexivity|]. apply filter_In. split.
  - cbn. apply in_app_iff. right. now left.
  - cbn. now rewrite Z.eqb_refl.
Qed.

Lemma X15_created_room_is_listed_witness :
  exists room_id db' ids,
    create_room "token-a" 5 hard db_start = (Return room_id, db') /\
    search_room 5 db' = (Return (Some ids), db') /\
    In room_id ids.
Proof.
  apply (X15_created_room_is_listed "token-a" 5 hard db_start
           (mk_SafeUser 1 "A" 10)).
  reflexivity.
Defined.

(** X16. When the ids in the tables lie below the store's counter, the id
    create_room returns is carried by exactly one room row, the new one;
    get_room_user_count on it returns 1, get_upto_member_room returns Ok,
    and the room has one member row. *)
Theorem X16_created_room_lookup (token : string) (live_id : Z)
  (difficulty : LiveDifficulty) (db : database) (u : SafeUser) :
  ids_issued db -> resolves token db u ->
  exists room_id db',
    create_room token live_id difficulty db = (Return room_id, db') /\
    room_is room_id db' (mk_room room_id live_id (id u) 1 1) /\
    get_room_user_count room_id db' = (Return 1, db') /\
    get_upto_member_room room_id db' = (Return Ok, db') /\
    member_count room_id db' = 1.
Proof.
  unfold resolves. intros Hids Hu. do 2 eexists.
  rewrite create_room_run. unfold create_room_result. rewrite Hu.
  split; [reflexivity|].
  assert (room_is (room_auto_increment db)
            (insert_member (room_auto_increment db) (id u)
               (int_LiveDifficulty difficulty) room_member_in_order_default
               (insert_room live_id (id u) 1 1 db))
            (mk_room (room_auto_increment db) live_id (id u) 1 1)) as Hr.
  { unfold room_is, select_room_by_id. cbn [room insert_member insert_room].
    rewrite filter_app. fold (select_room_by_id (room_auto_increment db) db).
    rewrite select_room_none by apply Hids. cbn. now rewrite Z.eqb_refl. }
  split; [exact Hr|]. unfold room_is in Hr.
  rewrite get_room_user_count_run, get_upto_member_room_run, Hr.
  repeat split. unfold member_count.
  rewrite new_room_members by exact Hids. now rewrite Z.eqb_refl.
Qed.

Lemma X16_created_room_lookup_witness :
  exists room_id db',
    create_room "token-c" 7 normal db_joined = (Return room_id, db') /\
    room_is room_id db' (mk_room room_id 7 3 1 1) /\
    get_room_user_count room_id db' = (Return 1, db') /\
    get_upto_member_room room_id db' = (Return Ok, db') /\
    member_count room_id db' = 1.
Proof.
  apply (X16_created_room_lookup "token-c" 7 normal db_joined
           (mk_SafeUser 3 "C" 12)).
  - exact db_joined_ids.
  - reflexivity.
Defined.

(** X17. After a join_room that returns Ok, get_room_user_count on the
    room returns the count it had before plus one, and the room has one
    member row more. *)
Theorem X17_join_then_count (token : string) (room_id : Z)
  (db db' : database) (r : room_row) :
  room_is room_id db r ->
  join_room token room_id db = (Return Ok, db') ->
  get_room_user_count room_id db'
  = (Return (r_joined_user_count r + 1), db') /\
  member_count room_id db' = member_count room_id db + 1.
Proof.
  intros Hr Hrun. apply join_room_Ok in Hrun.
  destruct Hrun as (u & r0 & _ & Hr0 & _ & ->).
  assert (r0 = r) as -> by (unfold room_is in *; congruence).
  split.
  - rewrite get_room_user_count_run.
    rewrite (room_is_after_admit _ _ _ _ _ _ Hr). reflexivity.
  - unfold member_count. rewrite admit_members, Z.eqb_refl, length_app.
    cbn [List.length]. lia.
Qed.

Lemma X17_join_then_count_witness :
  get_room_user_count 1 db_joined = (Return (1 + 1), db_joined) /\
  member_count 1 db_joined = member_count 1 db_created + 1.
Proof.
  apply (X17_join_then_count "token-b" 1 db_created db_joined
           (mk_room 1 5 1 1 1)).
  - reflexivity.
  - reflexivity.
Defined.

(** X18. The join that takes a room from three members to four closes
    it: the call returns Ok, after it search_room lists the room for no
    live_id, and every further join_room on it, by any caller whose token
    at most one row carries, returns RoomFull and writes nothing. *)
Theorem X18_fourth_member_closes_room (token : string) (room_id : Z)
  (db : database) (u : SafeUser) (r : room_row) :
  resolves token db u -> room_is room_id db r ->
  r_joined_user_count r = 3 ->
  exists db',
    join_room token room_id db = (Return Ok, db') /\
    (forall live_id ids,
        search_room live_id db' = (Return (Some ids), db') ->
        ~ In room_id ids) /\
    (forall token', unambiguous token' db' ->
                    join_room token' room_id db' = (Return RoomFull, db')).
Proof.
  intros Hu Hr Hc. eexists.
  split; [apply (join_room_admits _ _ _ u r Hu Hr); lia|]. split.
  - intros live_id ids. rewrite search_room_run. intros [= <-] Hin.
    apply in_map_iff in Hin. destruct Hin as (r' & Hid & Hin).
    apply filter_In in Hin. destruct Hin as [Hin Hf].
    destruct (admit_rooms _ _ _ _ _ _ Hr _ Hin) as [[_ Hc']|[Hne _]];
      [|contradiction].
    apply andb_true_iff in Hf. destruct Hf as [_ Hf].
    apply andb_true_iff in Hf. destruct Hf as [_ H3].
    apply Z.leb_le in H3. lia.
  - intros token' Hu'.
    pose proof (room_is_after_admit room_id (id u) 1
                  (r_joined_user_count r + 1) db r Hr) as Hr'.
    rewrite (join_room_closed _ _ _ _ Hu' Hr'); cbn [r_joined_user_count].
    + now rewrite (proj2 (judge_RoomFull _)) by lia.
    + lia.
Qed.

Lemma X18_fourth_member_closes_room_witness :
  exists db',
    join_room "token-d" 1 db_three = (Return Ok, db') /\
    (forall live_id ids,
        search_room live_id db' = (Return (Some ids), db') ->
        ~ In 1 ids) /\
    (forall token', unambiguous token' db' ->
                    join_room token' 1 db' = (Return RoomFull, db')).
Proof.
  apply (X18_fourth_member_closes_room "token-d" 1 db_three
           (mk_SafeUser 4 "D" 13) (mk_room 1 5 1 3 1)).
  - reflexivity.
  - reflexivity.
  - reflexivity.
Defined.

Lemma update_room_upcount_none room_id db :
  select_room_by_id room_id db = [] -> update_room_upcount room_id db = db.
Proof.
  unfold select_room_by_id, update_room_upcount.
  destruct db as [us rs ms n]. cbn [user room room_member room_auto_increment].
  intros H. f_equal.
  induction rs as [|x l IH]; [reflexivity|].
  cbn [map filter] in *.
  destruct (r_id x =? room_id); [discriminate H|]. now rewrite IH.
Qed.

(** X19. upcount_joined_count never raises and touches only the rows of
    its room id: the user and member tables and the counter stay, a room
    row with another id is after the call what it was before, and no such
    row appears; when no row carries the id, nothing changes at all. *)
Theorem X19_upcount_scoped (room_id : Z) (db : database) :
  exists db',
    upcount_joined_count room_id db = (Return tt, db') /\
    user db' = user db /\ room_member db' = room_member db /\
    room_auto_increment db' = room_auto_increment db /\
    (forall r, r_id r <> room_id -> (In r (room db') <-> In r (room db))) /\
    (select_room_by_id room_id db = [] -> db' = db).
Proof.
  exists (update_room_upcount room_id db).
  split; [reflexivity|]. repeat (split; [reflexivity|]). split.
  - intros r Hne. cbn [room update_room_upcount]. rewrite in_map_iff. split.
    + intros (r0 & Hr0 & Hin).
      destruct (Z.eqb_spec (r_id r0) room_id) as [e|_]; subst r;
        [cbn in Hne; contradiction | assumption].
    + intros Hin. exists r. split; [|assumption].
      destruct (Z.eqb_spec (r_id r) room_id); [contradiction | reflexivity].
  - apply update_room_upcount_none.
Qed.

(** X20. On a room id no room row carries, get_room_user_count and
    get_upto_member_room raise NoResultFound, and so does join_room for
    every caller whose token at most one row carries; none of them
    writes. *)
Theorem X20_missing_room (token : string) (room_id : Z) (db : database) :
  select_room_by_id room_id db = [] ->
  get_room_user_count room_id db = (Raise NoResultFound, db) /\
  get_upto_member_room room_id db = (Raise NoResultFound, db) /\
  (unambiguous token db ->
   join_room token room_id db = (Raise NoResultFound, db)).
Proof.
  intros Hr. rewrite get_room_user_count_run, get_upto_member_room_run, Hr.
  repeat split. intros Hu. now apply join_room_no_room.
Qed.

Lemma X20_missing_room_witness :
  get_room_user_count 9 db_joined = (Raise NoResultFound, db_joined) /\
  get_upto_member_room 9 db_joined = (Raise NoResultFound, db_joined) /\
  join_room "token-c" 9 db_joined = (Raise NoResultFound, db_joined).
Proof.
  destruct (X20_missing_room "token-c" 9 db_joined eq_refl) as (H1 & H2 & H3).
  split; [exact H1|]. split; [exact H2|].
  apply H3. unfold unambiguous. cbn. lia.
Defined.

(** ** Overlapping joins and the invariants *)

Lemma join_room_decide_open token room_id db u r :
  resolves token db u -> room_is room_id db r ->
  0 <= r_joined_user_count r < 4 ->
  join_room_decide token room_id db
  = (Return (inr (id u, r_joined_user_count r + 1)), db).
Proof.
  intros Hu Hr Hc. unfold join_room_decide, bind.
  rewrite (get_user_resolved _ _ _ Hu), get_upto_member_room_run.
  unfold room_is in Hr. rewrite Hr. cbn [one].
  rewrite (proj2 (judge_Ok _) Hc).
  change (JoinRoomResult_eqb Ok Ok) with true. cbv beta iota.
  rewrite get_room_user_count_run, Hr. reflexivity.
Qed.

(** Both callers read the same count, both are told Ok, and both write a
    member row with that count plus one. *)
Lemma interleaved_joins_run token1 token2 room_id db u1 u2 r :
  resolves token1 db u1 -> resolves token2 db u2 -> room_is room_id db r ->
  0 <= r_joined_user_count r < 4 ->
  interleaved_joins token1 token2 room_id db
  = ((Return Ok, Return Ok),
     update_room_upcount room_id
       (insert_member room_id (id u2) 1 (r_joined_user_count r + 1)
          (update_room_upcount room_id
             (insert_member room_id (id u1) 1 (r_joined_user_count r + 1)
                db)))).
Proof.
  intros H1 H2 Hr Hc. unfold interleaved_joins.
  rewrite (join_room_decide_open _ _ _ _ _ H1 Hr Hc).
  rewrite (join_room_decide_open _ _ _ _ _ H2 Hr Hc).
  reflexivity.
Qed.

(** C1. The capacity invariant does not survive two overlapping join_room
    calls.  On a room that exactly one row carries and that holds three
    members, two callers with resolving tokens whose reads both run
    before either writes are both told Ok; the room ends with a
    joined_user_count of 5 and two more member rows, above the capacity
    of 4, so the invariant fails in the database they leave. *)
Theorem C1_interleaved_joins_exceed_capacity (token1 token2 : string)
  (room_id : Z) (db : database) (u1 u2 : SafeUser) (r : room_row) :
  resolves token1 db u1 -> resolves token2 db u2 -> room_is room_id db r ->
  r_joined_user_count r = 3 ->
  exists db',
    interleaved_joins token1 token2 room_id db
    = ((Return Ok, Return Ok), db') /\
    room_is room_id db'
      (mk_room (r_id r) (r_live_id r) (r_room_master r) 5 (r_status r)) /\
    member_count room_id db' = member_count room_id db + 2 /\
    ~ capacity_invariant db'.
Proof.
  intros H1 H2 Hr Hc. eexists.
  split; [apply (interleaved_joins_run _ _ _ _ u1 u2 r); try assumption; lia|].
  pose proof (room_is_after_admit room_id (id u1) 1
                (r_joined_user_count r + 1) db r Hr) as Hr1.
  pose proof (room_is_after_admit room_id (id u2) 1
                (r_joined_user_count r + 1) _ _ Hr1) as Hr2.
  cbn [r_id r_live_id r_room_master r_joined_user_count r_status] in Hr2.
  replace (r_joined_user_count r + 1 + 1) with 5 in Hr2 by lia.
  split; [exact Hr2|]. split.
  - unfold member_count.
    rewrite select_member_upcount, select_member_insert_member.
    rewrite select_member_upcount, select_member_insert_member.
    rewrite Z.eqb_refl, !length_app. cbn [List.length]. lia.
  - intros Hinv. destruct (room_is_In _ _ _ Hr2) as [Hin _].
    destruct (Hinv _ Hin) as [Hbound _].
    unfold capacity in Hbound. cbn in Hbound. lia.
Qed.

Lemma C1_interleaved_joins_exceed_capacity_witness :
  exists db',
    interleaved_joins "token-d" "token-e" 1 db_three
    = ((Return Ok, Return Ok), db') /\
    room_is 1 db' (mk_room 1 5 1 5 1) /\
    member_count 1 db' = member_count 1 db_three + 2 /\
    ~ capacity_invariant db'.
Proof.
  apply (C1_interleaved_joins_exceed_capacity "token-d" "token-e" 1 db_three
           (mk_SafeUser 4 "D" 13) (mk_SafeUser 5 "E" 14) (mk_room 1 5 1 3 1)).
  - reflexivity.
  - reflexivity.
  - reflexivity.
  - reflexivity.
Defined.

(** The database the two callers start from satisfies what the sequential
    lemmas ask and keep. *)
Lemma db_three_invariants :
  ids_issued db_three /\ capacity_invariant db_three /\
  join_order_invariant db_three.
Proof.
  split; [|split].
  - split; intros x H; finite_rows H; cbn; lia.
  - intros x H. finite_rows H. unfold capacity. cbn. lia.
  - intros x H. finite_rows H. reflexivity.
Qed.

(** C3. The in_order values do not stay distinct under two overlapping
    join_room calls.  On a room that exactly one row carries and whose
    count is 0 to 3, two callers with resolving tokens whose reads both
    run before either writes are both told Ok and both write the count
    they read plus one: the room's in_order values end with that number
    twice, are not pairwise distinct, and are not 1..joined_user_count. *)
Theorem C3_interleaved_joins_repeat_in_order (token1 token2 : string)
  (room_id : Z) (db : database) (u1 u2 : SafeUser) (r : room_row) :
  resolves token1 db u1 -> resolves token2 db u2 -> room_is room_id db r ->
  0 <= r_joined_user_count r < 4 ->
  exists db',
    interleaved_joins token1 token2 room_id db
    = ((Return Ok, Return Ok), db') /\
    join_orders room_id db'
    = join_orders room_id db
      ++ [r_joined_user_count r + 1; r_joined_user_count r + 1] /\
    ~ NoDup (join_orders room_id db') /\
    ~ join_order_invariant db'.
Proof.
  intros H1 H2 Hr Hc. eexists.
  split; [apply (interleaved_joins_run _ _ _ _ u1 u2 r); assumption|].
  assert (join_orders room_id
            (update_room_upcount room_id
               (insert_member room_id (id u2) 1 (r_joined_user_count r + 1)
                  (update_room_upcount room_id
                     (insert_member room_id (id u1) 1
                        (r_joined_user_count r + 1) db))))
          = join_orders room_id db
            ++ [r_joined_user_count r + 1; r_joined_user_count r + 1]) as Hjo.
  { unfold join_orders.
    rewrite select_member_upcount, select_member_insert_member.
    rewrite select_member_upcount, select_member_insert_member.
    rewrite Z.eqb_refl, !map_app, <- app_assoc. reflexivity. }
  assert (~ NoDup (join_orders room_id db
                   ++ [r_joined_user_count r + 1; r_joined_user_count r + 1]))
    as Hdup.
  { intros Hnd. apply NoDup_app_remove_l in Hnd.
    inversion Hnd as [|? ? Hnotin _]; subst. apply Hnotin. now left. }
  split; [exact Hjo|]. split; [now rewrite Hjo|].
  intros Hinv.
  pose proof (room_is_after_admit room_id (id u1) 1
                (r_joined_user_count r + 1) db r Hr) as Hr1.
  pose proof (room_is_after_admit room_id (id u2) 1
                (r_joined_user_count r + 1) _ _ Hr1) as Hr2.
  destruct (room_is_In _ _ _ Hr2) as [Hin Hid].
  specialize (Hinv _ Hin). rewrite Hid, Hjo in Hinv.
  apply Hdup. rewrite Hinv. apply one_up_to_NoDup.
Qed.

Lemma C3_interleaved_joins_repeat_in_order_witness :
  exists db',
    interleaved_joins "token-b" "token-c" 1 db_created
    = ((Return Ok, Return Ok), db') /\
    join_orders 1 db' = join_orders 1 db_created ++ [1 + 1; 1 + 1] /\
    ~ NoDup (join_orders 1 db') /\
    ~ join_order_invariant db'.
Proof.
  apply (C3_interleaved_joins_repeat_in_order "token-b" "token-c" 1 db_created
           (mk_SafeUser 2 "B" 11) (mk_SafeUser 3 "C" 12) (mk_room 1 5 1 1 1)).
  - reflexivity.
  - reflexivity.
  - reflexivity.
  - cbn. lia.
Defined.
